(** * LibusbDevice: a shallow embedding of Core/IOS/USB/LibusbDevice.cpp

    The passthrough USB device of the IOS HLE kernel.  A [LibusbDevice]
    keeps the cached configuration descriptors, the attach state and one
    [TransferEndpoint] per endpoint number, each of which maps in-flight
    libusb transfers to the guest command that owns them.

    Modelling choices:
    - libusb is the environment: every libusb call is a field of the
      [Host] record (its result), and the call itself is recorded in the
      event log, so that "no host call" can be stated;
    - guest-visible effects (buffer copies, per-packet return values,
      [OnTransferComplete], [EnqueueIPCReply]) and log lines are events;
    - [std::map] becomes a stdpp [gmap]; [operator[]] inserts an empty
      value when the key is absent, exactly as in C++;
    - undefined behaviour (a null dereference, a failed [_assert_], a
      [static_cast] to the wrong message type) is the [None] outcome. *)

From Stdlib Require Import ZArith Lia.
From stdpp Require Import base gmap list strings.

Open Scope Z_scope.

(** ** Constants *)

(** libusb's public error codes and transfer enums (libusb.h). *)
Definition LIBUSB_SUCCESS : Z := 0.
Definition LIBUSB_ERROR_NO_DEVICE : Z := -4.
Definition LIBUSB_ERROR_NOT_FOUND : Z := -5.
Definition LIBUSB_ERROR_NOT_SUPPORTED : Z := -12.
Definition LIBUSB_CONTROL_SETUP_SIZE : Z := 8.

Inductive libusb_transfer_status :=
  | LIBUSB_TRANSFER_COMPLETED
  | LIBUSB_TRANSFER_ERROR
  | LIBUSB_TRANSFER_TIMED_OUT
  | LIBUSB_TRANSFER_CANCELLED
  | LIBUSB_TRANSFER_STALL
  | LIBUSB_TRANSFER_NO_DEVICE
  | LIBUSB_TRANSFER_OVERFLOW.

Inductive libusb_transfer_type :=
  | LIBUSB_TRANSFER_TYPE_CONTROL
  | LIBUSB_TRANSFER_TYPE_ISOCHRONOUS
  | LIBUSB_TRANSFER_TYPE_BULK
  | LIBUSB_TRANSFER_TYPE_INTERRUPT.

(** Modelled from the spec: the IOS result codes of Core/IOS/Device.h,
    which is not part of the sources.  The spec names "success" and the
    "no such entry" code; the values are those of the IOS ABI. *)
Definition IPC_SUCCESS : Z := 0.
Definition IPC_ENOENT : Z := -6.

(** Modelled from the spec: the request-type fields and the standard
    request numbers of Core/IOS/USB/Common.h (not part of the sources),
    which follow chapter 9 of the USB 2.0 specification. *)
Definition DIR_HOST2DEVICE : Z := 0.
Definition TYPE_STANDARD : Z := 0.
Definition REC_DEVICE : Z := 0.
Definition REC_INTERFACE : Z := 1.
Definition REQUEST_SET_CONFIGURATION : Z := 9.
Definition REQUEST_SET_INTERFACE : Z := 11.

(** Modelled from the spec: the [USBHDR] macro of Core/IOS/USB/Common.h,
    the 16-bit value [(bmRequestType << 8) | bRequest]. *)
Definition USBHDR (dir type recipient request : Z) : Z :=
  Z.lor (Z.shiftl (Z.lor (Z.lor (Z.shiftl dir 7) (Z.shiftl type 5)) recipient) 8) request.

(** ** Descriptors (libusb's structs; the counts are the array lengths) *)

Record libusb_endpoint_descriptor := {
  bEndpointAddress : Z;
  bmAttributes : Z;
  wMaxPacketSize : Z;
}.

Record libusb_interface_descriptor := {
  bInterfaceNumber : Z;
  bAlternateSetting : Z;
  endpoint : list libusb_endpoint_descriptor;
}.

Record libusb_interface := {
  altsetting : list libusb_interface_descriptor;
}.

Record libusb_config_descriptor := {
  bConfigurationValue : Z;
  interface : list libusb_interface;
}.

Definition bNumEndpoints (d : libusb_interface_descriptor) : Z := Z.of_nat (length (endpoint d)).
Definition num_altsetting (i : libusb_interface) : Z := Z.of_nat (length (altsetting i)).
Definition bNumInterfaces (c : libusb_config_descriptor) : Z := Z.of_nat (length (interface c)).

(** [LibusbConfigDescriptor]: [m_descriptor], null when unreadable. *)
Abbreviation LibusbConfigDescriptor := (option libusb_config_descriptor).

Definition IsValid (c : LibusbConfigDescriptor) : bool :=
  match c with Some _ => true | None => false end.

Record libusb_device_descriptor := {
  idVendor : Z;
  idProduct : Z;
  bNumConfigurations : Z;
}.

(** ** Transfer commands (the guest side of a transfer) *)

Record CtrlMessage := {
  ctrl_ios_request : Z;
  request_type : Z;
  request : Z;
  value : Z;
  index : Z;
  ctrl_length : Z;
  data_address : Z;
}.

Record BulkMessage := {
  bulk_ios_request : Z;
  bulk_endpoint : Z;
  bulk_length : Z;
}.

Record IntrMessage := {
  intr_ios_request : Z;
  intr_endpoint : Z;
  intr_length : Z;
}.

Record IsoMessage := {
  iso_ios_request : Z;
  iso_endpoint : Z;
  iso_length : Z;
  num_packets : nat;
  packet_sizes : list Z;
}.

(** The dynamic type behind a [TransferCommand&]. *)
Inductive TransferCommand :=
  | Ctrl (m : CtrlMessage)
  | Bulk (m : BulkMessage)
  | Intr (m : IntrMessage)
  | Iso (m : IsoMessage).

Definition ios_request (c : TransferCommand) : Z :=
  match c with
  | Ctrl m => ctrl_ios_request m
  | Bulk m => bulk_ios_request m
  | Intr m => intr_ios_request m
  | Iso m => iso_ios_request m
  end.

(** ** libusb transfers: a pointer identity and the fields the callbacks read *)

Definition transfer_ptr := N.

Record libusb_iso_packet_descriptor := {
  iso_desc_length : Z;
  actual_length_pkt : Z;
}.

Record libusb_transfer := {
  t_ptr : transfer_ptr;
  t_endpoint : Z;
  t_type : libusb_transfer_type;
  t_status : libusb_transfer_status;
  t_length : Z;
  t_actual_length : Z;
  iso_packet_desc : list libusb_iso_packet_descriptor;
}.

(** ** Events *)

Inductive host_call :=
  | HOpen
  | HDetachKernelDriver (interface : Z)
  | HClaimInterface (interface : Z)
  | HReleaseInterface (interface : Z)
  | HSetInterfaceAltSetting (interface alt_setting : Z)
  | HSetConfiguration (configuration : Z)
  | HSubmitTransfer (t : transfer_ptr)
  | HCancelTransfer (t : transfer_ptr).

(** Writes into guest memory made by a completion function. *)
Inductive guest_write :=
  (** [cmd.FillBuffer(src, size)] *)
  | FillBuffer (ios_request : Z) (size : Z)
  (** [IsoMessage::SetPacketReturnValue(i, value)] *)
  | SetPacketReturnValue (ios_request : Z) (i : nat) (v : Z).

Inductive event :=
  | EvLog (msg : string)
  | EvHost (c : host_call)
  | EvGuest (w : guest_write)
  (** [TransferCommand::OnTransferComplete(return_value)] *)
  | EvTransferComplete (ios_request : Z) (return_value : Z)
  (** [Kernel::EnqueueIPCReply(request, return_value)] *)
  | EvReply (ios_request : Z) (return_value : Z).

(** ** TransferEndpoint *)

(** [std::map<libusb_transfer*, std::unique_ptr<TransferCommand>>] *)
Abbreviation TransferEndpoint := (gmap transfer_ptr TransferCommand).

(** [AddTransfer]: [emplace] leaves an existing key untouched. *)
Definition AddTransfer (cmd : TransferCommand) (t : transfer_ptr)
    (te : TransferEndpoint) : TransferEndpoint :=
  match te !! t with
  | Some _ => te
  | None => <[t := cmd]> te
  end.

(** The [std::function] handed to [HandleTransfer]: it copies data back
    into guest memory and computes the return value; [None] when it has
    undefined behaviour. *)
Definition completion_fn := TransferCommand -> option (Z * list guest_write).

Definition HandleTransfer (te : TransferEndpoint) (transfer : libusb_transfer)
    (fn : completion_fn) : option (TransferEndpoint * list event) :=
  match te !! t_ptr transfer with
  | None => Some (te, [EvLog "No such transfer"%string])
  | Some cmd =>
      let dispatched :=
        match t_status transfer with
        | LIBUSB_TRANSFER_COMPLETED =>
            match fn cmd with
            | None => None
            | Some (return_value, writes) => Some (return_value, map EvGuest writes)
            end
        | LIBUSB_TRANSFER_ERROR | LIBUSB_TRANSFER_CANCELLED
        | LIBUSB_TRANSFER_TIMED_OUT | LIBUSB_TRANSFER_OVERFLOW
        | LIBUSB_TRANSFER_STALL =>
            Some (match t_status transfer with
                  | LIBUSB_TRANSFER_STALL => -7004
                  | _ => -5
                  end, [EvLog "transfer failed"%string])
        | LIBUSB_TRANSFER_NO_DEVICE => Some (IPC_ENOENT, [])
        end in
      match dispatched with
      | None => None
      | Some (return_value, evs) =>
          Some (delete (t_ptr transfer) te,
                evs ++ [EvTransferComplete (ios_request cmd) return_value])
      end
  end.

(** [CancelTransfers]: one [libusb_cancel_transfer] per tracked transfer,
    in key order; the map itself is left alone. *)
Definition CancelTransfers (te : TransferEndpoint) : list event :=
  if decide (te = ∅) then []
  else EvLog "Cancelling transfer(s)"%string
       :: map (fun p => EvHost (HCancelTransfer p.1)) (map_to_list te).

(** ** The device *)

Record LibusbDevice := {
  m_vid : Z;
  m_pid : Z;
  m_id : Z;
  m_config_descriptors : list LibusbConfigDescriptor;
  m_device_attached : bool;
  m_active_interface : Z;
  (** [m_handle != nullptr] *)
  m_handle : bool;
  (** [std::map<u8, TransferEndpoint>] *)
  m_transfer_endpoints : gmap Z TransferEndpoint;
  (** the next pointer [libusb_alloc_transfer] hands out *)
  m_next_transfer : transfer_ptr;
}.

Definition set_device_attached (b : bool) (d : LibusbDevice) : LibusbDevice :=
  {| m_vid := m_vid d; m_pid := m_pid d; m_id := m_id d;
     m_config_descriptors := m_config_descriptors d; m_device_attached := b;
     m_active_interface := m_active_interface d; m_handle := m_handle d;
     m_transfer_endpoints := m_transfer_endpoints d;
     m_next_transfer := m_next_transfer d |}.

Definition set_active_interface (i : Z) (d : LibusbDevice) : LibusbDevice :=
  {| m_vid := m_vid d; m_pid := m_pid d; m_id := m_id d;
     m_config_descriptors := m_config_descriptors d;
     m_device_attached := m_device_attached d;
     m_active_interface := i; m_handle := m_handle d;
     m_transfer_endpoints := m_transfer_endpoints d;
     m_next_transfer := m_next_transfer d |}.

Definition set_handle (h : bool) (d : LibusbDevice) : LibusbDevice :=
  {| m_vid := m_vid d; m_pid := m_pid d; m_id := m_id d;
     m_config_descriptors := m_config_descriptors d;
     m_device_attached := m_device_attached d;
     m_active_interface := m_active_interface d; m_handle := h;
     m_transfer_endpoints := m_transfer_endpoints d;
     m_next_transfer := m_next_transfer d |}.

Definition set_transfer_endpoints (eps : gmap Z TransferEndpoint)
    (d : LibusbDevice) : LibusbDevice :=
  {| m_vid := m_vid d; m_pid := m_pid d; m_id := m_id d;
     m_config_descriptors := m_config_descriptors d;
     m_device_attached := m_device_attached d;
     m_active_interface := m_active_interface d; m_handle := m_handle d;
     m_transfer_endpoints := eps; m_next_transfer := m_next_transfer d |}.

Definition set_next_transfer (n : transfer_ptr) (d : LibusbDevice) : LibusbDevice :=
  {| m_vid := m_vid d; m_pid := m_pid d; m_id := m_id d;
     m_config_descriptors := m_config_descriptors d;
     m_device_attached := m_device_attached d;
     m_active_interface := m_active_interface d; m_handle := m_handle d;
     m_transfer_endpoints := m_transfer_endpoints d; m_next_transfer := n |}.

(** [m_transfer_endpoints[ep]] as an rvalue: [operator[]] default-constructs
    an empty endpoint when [ep] is absent. *)
Definition endpoint_at (eps : gmap Z TransferEndpoint) (ep : Z) : TransferEndpoint :=
  default ∅ (eps !! ep).

(** ** The host: results of the libusb calls *)

Record Host := {
  libusb_get_bus_number : Z;
  libusb_get_device_address : Z;
  (** return code and the descriptor written on success *)
  libusb_get_config_descriptor : Z -> Z * libusb_config_descriptor;
  libusb_open : Z;
  libusb_detach_kernel_driver : Z -> Z;
  libusb_claim_interface : Z -> Z;
  libusb_release_interface : Z -> Z;
  libusb_set_interface_alt_setting : Z -> Z -> Z;
  libusb_set_configuration : Z -> Z;
  libusb_submit_transfer : transfer_ptr -> Z;
}.

(** ** A state, log and fault monad *)

Definition M (A : Type) : Type :=
  LibusbDevice -> option (A * LibusbDevice * list event).

Global Instance M_ret : MRet M := fun A a s => Some (a, s, []).

Global Instance M_bind : MBind M := fun A B k m s =>
  match m s with
  | None => None
  | Some (a, s1, l1) =>
      match k a s1 with
      | None => None
      | Some (b, s2, l2) => Some (b, s2, l1 ++ l2)
      end
  end.

Definition get : M LibusbDevice := fun s => Some (s, s, []).
Definition modify (f : LibusbDevice -> LibusbDevice) : M unit :=
  fun s => Some (tt, f s, []).
Definition emit (e : event) : M unit := fun s => Some (tt, s, [e]).
Definition emit_all (es : list event) : M unit := fun s => Some (tt, s, es).
Definition log (msg : string) : M unit := emit (EvLog msg).
(** undefined behaviour, a failed assertion *)
Definition fault {A} : M A := fun _ => None.

(** [x ← m; k] and [m ;; k] are stdpp's notations for [MBind]. *)

(** The calls [~LibusbDevice] makes once the interface is released. *)
Inductive teardown_call :=
  | libusb_close
  | libusb_unref_device.

(** ** LibusbDevice.cpp *)

Section LibusbDevice.

Context (host : Host).

(** [static_cast<u64>(x) << k] on 64 bits. *)
Definition u64_shl (x k : Z) : Z := Z.land (Z.shiftl x k) (Z.ones 64).

Definition device_id (vid pid bus address : Z) : Z :=
  Z.lor (Z.lor (Z.lor (u64_shl vid 32) (u64_shl pid 16)) (u64_shl bus 8)) address.

(** [LibusbConfigDescriptor::LibusbConfigDescriptor(device, config_num)] *)
Definition make_config_descriptor (config_num : Z) : LibusbConfigDescriptor :=
  let '(ret, d) := libusb_get_config_descriptor host config_num in
  if decide (ret ≠ LIBUSB_SUCCESS) then None else Some d.

(** [LibusbDevice::LibusbDevice(ios, device, descriptor)] *)
Definition make_device (descriptor : libusb_device_descriptor) : LibusbDevice :=
  {| m_vid := idVendor descriptor;
     m_pid := idProduct descriptor;
     m_id := device_id (idVendor descriptor) (idProduct descriptor)
               (libusb_get_bus_number host) (libusb_get_device_address host);
     m_config_descriptors :=
       (fun i => make_config_descriptor (Z.of_nat i))
         <$> seq 0 (Z.to_nat (bNumConfigurations descriptor));
     m_device_attached := false;
     m_active_interface := 0;
     m_handle := false;
     m_transfer_endpoints := ∅;
     m_next_transfer := 1%N |}.

(** The loop of [GetConfigurations]: the valid descriptors, one log line
    per invalid one. *)
Fixpoint collect_configurations (cs : list LibusbConfigDescriptor)
    : list libusb_config_descriptor * list event :=
  match cs with
  | [] => ([], [])
  | None :: cs' =>
      let '(ds, evs) := collect_configurations cs' in
      (ds, EvLog "Ignoring invalid config descriptor"%string :: evs)
  | Some d :: cs' =>
      let '(ds, evs) := collect_configurations cs' in (d :: ds, evs)
  end.

Definition GetConfigurations : M (list libusb_config_descriptor) :=
  s ← get;
  let '(ds, evs) := collect_configurations (m_config_descriptors s) in
  emit_all evs;;
  mret ds.

(** The guard shared by [GetInterfaces] and [GetEndpoints]:
    [config >= m_config_descriptors.size() || !m_config_descriptors[config]->IsValid()];
    [None] when it holds. *)
Definition checked_config (s : LibusbDevice) (config : Z)
    : option libusb_config_descriptor :=
  if decide (Z.of_nat (length (m_config_descriptors s)) <= config) then None
  else match m_config_descriptors s !! Z.to_nat config with
       | Some (Some d) => Some d
       | _ => None
       end.

Definition GetInterfaces (config : Z) : M (list libusb_interface_descriptor) :=
  s ← get;
  match checked_config s config with
  | None => log "Invalid config descriptor"%string;; mret []
  | Some d => mret (concat (map altsetting (interface d)))
  end.

(** [_assert_] raises a panic alert; past it the array access is out of
    bounds, so a failed assertion is a fault here. *)
Definition GetEndpoints (config interface_number alt_setting : Z)
    : M (list libusb_endpoint_descriptor) :=
  s ← get;
  match checked_config s config with
  | None => log "Invalid config descriptor"%string;; mret []
  | Some d =>
      if decide (interface_number < bNumInterfaces d) then
        match interface d !! Z.to_nat interface_number with
        | None => fault
        | Some intf =>
            if decide (alt_setting < num_altsetting intf) then
              match altsetting intf !! Z.to_nat alt_setting with
              | None => fault
              | Some interface_descriptor => mret (endpoint interface_descriptor)
              end
            else fault
        end
      else fault
  end.

(** [GetNumberOfAltSettings]:
    [m_config_descriptors[0]->Get()->interface[interface_number].num_altsetting],
    with no check: a missing or null first descriptor, or an index past the
    interface array, is undefined. *)
Definition GetNumberOfAltSettings (interface_number : Z) : M Z :=
  s ← get;
  match m_config_descriptors s !! 0%nat with
  | Some (Some d0) =>
      match interface d0 !! Z.to_nat interface_number with
      | Some intf => mret (num_altsetting intf)
      | None => fault
      end
  | _ => fault
  end.

Definition AttachInterface (interface : Z) : M Z :=
  s ← get;
  if negb (m_handle s) then
    log "Cannot attach without a valid device handle"%string;; mret (-1)
  else
    log "Attaching interface"%string;;
    emit (EvHost (HDetachKernelDriver interface));;
    let ret := libusb_detach_kernel_driver host interface in
    if decide (ret < 0 /\ ret ≠ LIBUSB_ERROR_NOT_FOUND /\ ret ≠ LIBUSB_ERROR_NOT_SUPPORTED) then
      log "Failed to detach kernel driver"%string;; mret ret
    else
      emit (EvHost (HClaimInterface interface));;
      let r := libusb_claim_interface host interface in
      if decide (r < 0) then
        log "Couldn't claim interface"%string;; mret r
      else
        modify (set_active_interface interface);;
        mret 0.

Definition DetachInterface : M Z :=
  s ← get;
  if negb (m_handle s) then
    log "Cannot detach without a valid device handle"%string;; mret (-1)
  else
    log "Detaching interface"%string;;
    emit (EvHost (HReleaseInterface (m_active_interface s)));;
    let ret := libusb_release_interface host (m_active_interface s) in
    if decide (ret < 0 /\ ret ≠ LIBUSB_ERROR_NO_DEVICE) then
      log "Failed to release interface"%string;; mret ret
    else mret 0.

(** [LibusbDevice::~LibusbDevice()]: the result of [DetachInterface] is
    dropped; the returned list holds the calls made after it, in order. *)
Definition LibusbDevice_destructor : M (list teardown_call) :=
  s ← get;
  (if m_device_attached s then _ ← DetachInterface; mret () else mret ());;
  s ← get;
  mret ((if m_handle s then [libusb_close] else []) ++ [libusb_unref_device]).

(** [m_config_descriptors[0]->Get()->bNumInterfaces]: a null (or missing)
    first descriptor is dereferenced, a fault. *)
Definition ChangeInterface (interface : Z) : M Z :=
  s ← get;
  if negb (m_device_attached s) then mret LIBUSB_ERROR_NOT_FOUND
  else
    match m_config_descriptors s !! 0%nat with
    | Some (Some d0) =>
        if decide (bNumInterfaces d0 <= interface) then mret LIBUSB_ERROR_NOT_FOUND
        else
          log "Changing interface"%string;;
          ret ← DetachInterface;
          if decide (ret < 0) then mret ret
          else AttachInterface interface
    | _ => fault
    end.

Definition SetAltSetting (alt_setting : Z) : M Z :=
  s ← get;
  if negb (m_device_attached s) then mret LIBUSB_ERROR_NOT_FOUND
  else
    log "Setting alt setting"%string;;
    emit (EvHost (HSetInterfaceAltSetting (m_active_interface s) alt_setting));;
    mret (libusb_set_interface_alt_setting host (m_active_interface s) alt_setting).

(** [libusb_open] writes the handle only when it succeeds. *)
Definition Attach (interface : Z) : M bool :=
  s ← get;
  if m_device_attached s && bool_decide (interface ≠ m_active_interface s) then
    r ← ChangeInterface interface; mret (bool_decide (r = 0))
  else if m_device_attached s then mret true
  else
    modify (set_device_attached false);;
    log "Opening device"%string;;
    emit (EvHost HOpen);;
    let ret := libusb_open host in
    if decide (ret ≠ 0) then log "Failed to open"%string;; mret false
    else
      modify (set_handle true);;
      r ← AttachInterface interface;
      if decide (r ≠ 0) then mret false
      else modify (set_device_attached true);; mret true.

Definition CancelTransfer (ep : Z) : M Z :=
  log "Cancelling transfers"%string;;
  s ← get;
  match m_transfer_endpoints s !! ep with
  | None => mret IPC_ENOENT
  | Some te => emit_all (CancelTransfers te);; mret IPC_SUCCESS
  end.

(** [libusb_alloc_transfer]: a fresh transfer. *)
Definition alloc_transfer : M transfer_ptr :=
  s ← get;
  modify (set_next_transfer (m_next_transfer s + 1)%N);;
  mret (m_next_transfer s).

(** [m_transfer_endpoints[ep].f(...)], inserting [ep] when absent. *)
Definition update_endpoint (ep : Z) (f : TransferEndpoint -> TransferEndpoint) : M unit :=
  s ← get;
  modify (set_transfer_endpoints
            (<[ep := f (endpoint_at (m_transfer_endpoints s) ep)]> (m_transfer_endpoints s))).

(** [static_cast<u8>(x)] *)
Definition u8 (x : Z) : Z := Z.land x 255.

(** The switch key [(cmd->request_type << 8) | cmd->request]. *)
Definition ctrl_request_key (cmd : CtrlMessage) : Z :=
  Z.lor (Z.shiftl (request_type cmd) 8) (request cmd).

Definition SET_INTERFACE_HDR : Z :=
  USBHDR DIR_HOST2DEVICE TYPE_STANDARD REC_INTERFACE REQUEST_SET_INTERFACE.
Definition SET_CONFIGURATION_HDR : Z :=
  USBHDR DIR_HOST2DEVICE TYPE_STANDARD REC_DEVICE REQUEST_SET_CONFIGURATION.

(** The [SET_INTERFACE] case of the switch in
    [SubmitTransfer(std::unique_ptr<CtrlMessage>)]. *)
Definition set_interface_request (cmd : CtrlMessage) : M Z :=
  s ← get;
  let set_alt_setting :=
    ret ← SetAltSetting (u8 (value cmd));
    (if decide (ret = 0) then emit (EvReply (ctrl_ios_request cmd) (ctrl_length cmd))
     else mret ());;
    mret ret in
  if decide (u8 (index cmd) ≠ m_active_interface s) then
    ret ← ChangeInterface (u8 (index cmd));
    if decide (ret < 0) then log "Failed to change interface"%string;; mret ret
    else set_alt_setting
  else set_alt_setting.

(** The [SET_CONFIGURATION] case of the same switch. *)
Definition set_configuration_request (cmd : CtrlMessage) : M Z :=
  emit (EvHost (HSetConfiguration (value cmd)));;
  let ret := libusb_set_configuration host (value cmd) in
  (if decide (ret = 0) then emit (EvReply (ctrl_ios_request cmd) (ctrl_length cmd))
   else mret ());;
  mret ret.

(** [SubmitTransfer(std::unique_ptr<CtrlMessage>)].  Building the setup
    packet and copying the guest data into the host buffer touch no state
    of the model. *)
Definition SubmitTransferCtrl (cmd : CtrlMessage) : M Z :=
  s ← get;
  if negb (m_device_attached s) then mret LIBUSB_ERROR_NOT_FOUND
  else if decide (ctrl_request_key cmd = SET_INTERFACE_HDR) then
    set_interface_request cmd
  else if decide (ctrl_request_key cmd = SET_CONFIGURATION_HDR) then
    set_configuration_request cmd
  else
    transfer ← alloc_transfer;
    update_endpoint 0 (AddTransfer (Ctrl cmd) transfer);;
    emit (EvHost (HSubmitTransfer transfer));;
    mret (libusb_submit_transfer host transfer).

(** [SubmitTransfer(std::unique_ptr<BulkMessage>)]; [transfer->endpoint]
    is [cmd->endpoint]. *)
Definition SubmitTransferBulk (cmd : BulkMessage) : M Z :=
  s ← get;
  if negb (m_device_attached s) then mret LIBUSB_ERROR_NOT_FOUND
  else
    transfer ← alloc_transfer;
    update_endpoint (bulk_endpoint cmd) (AddTransfer (Bulk cmd) transfer);;
    emit (EvHost (HSubmitTransfer transfer));;
    mret (libusb_submit_transfer host transfer).

Definition SubmitTransferIntr (cmd : IntrMessage) : M Z :=
  s ← get;
  if negb (m_device_attached s) then mret LIBUSB_ERROR_NOT_FOUND
  else
    transfer ← alloc_transfer;
    update_endpoint (intr_endpoint cmd) (AddTransfer (Intr cmd) transfer);;
    emit (EvHost (HSubmitTransfer transfer));;
    mret (libusb_submit_transfer host transfer).

Definition SubmitTransferIso (cmd : IsoMessage) : M Z :=
  s ← get;
  if negb (m_device_attached s) then mret LIBUSB_ERROR_NOT_FOUND
  else
    transfer ← alloc_transfer;
    update_endpoint (iso_endpoint cmd) (AddTransfer (Iso cmd) transfer);;
    emit (EvHost (HSubmitTransfer transfer));;
    mret (libusb_submit_transfer host transfer).

(** Run [HandleTransfer] on [m_transfer_endpoints[ep]]. *)
Definition handle_on_endpoint (ep : Z) (transfer : libusb_transfer)
    (fn : completion_fn) : M unit :=
  s ← get;
  match HandleTransfer (endpoint_at (m_transfer_endpoints s) ep) transfer fn with
  | None => fault
  | Some (te, evs) =>
      modify (set_transfer_endpoints (<[ep := te]> (m_transfer_endpoints s)));;
      emit_all evs
  end.

(** The lambda of [CtrlTransferCallback]: the return code is the total
    transfer length, setup packet included. *)
Definition ctrl_completion (transfer : libusb_transfer) : completion_fn :=
  fun cmd => Some (t_length transfer,
                   [FillBuffer (ios_request cmd) (t_actual_length transfer)]).

Definition CtrlTransferCallback (transfer : libusb_transfer) : M unit :=
  handle_on_endpoint 0 transfer (ctrl_completion transfer).

(** The lambda of [TransferCallback].  [static_cast<const IsoMessage&>]
    of another message kind, or a packet index past
    [transfer->iso_packet_desc], is undefined. *)
Definition transfer_completion (transfer : libusb_transfer) : completion_fn :=
  fun cmd =>
    match t_type transfer with
    | LIBUSB_TRANSFER_TYPE_ISOCHRONOUS =>
        match cmd with
        | Iso iso_msg =>
            packets ← mapM (fun i =>
                        desc ← iso_packet_desc transfer !! i;
                        Some (SetPacketReturnValue (iso_ios_request iso_msg) i
                                (actual_length_pkt desc)))
                      (seq 0 (num_packets iso_msg));
            Some (IPC_SUCCESS, FillBuffer (iso_ios_request iso_msg) (iso_length iso_msg) :: packets)
        | _ => None
        end
    | _ => Some (t_actual_length transfer,
                 [FillBuffer (ios_request cmd) (t_actual_length transfer)])
    end.

Definition TransferCallback (transfer : libusb_transfer) : M unit :=
  handle_on_endpoint (t_endpoint transfer) transfer (transfer_completion transfer).

End LibusbDevice.

(** The [OnTransferComplete] calls of a log. *)
Definition completions (evs : list event) : list (Z * Z) :=
  omap (fun e => match e with EvTransferComplete r v => Some (r, v) | _ => None end) evs.

(** [m] leaves the transfer trackers alone: it keeps every tracker and
    the transfer allocator, and submits no host transfer. *)
Definition tracker_frame {A} (m : M A) : Prop :=
  forall s a s' evs, m s = Some (a, s', evs) ->
    m_transfer_endpoints s' = m_transfer_endpoints s /\
    m_next_transfer s' = m_next_transfer s /\
    forall p, EvHost (HSubmitTransfer p) ∉ evs.

(** A zero result of [m] ends with [EnqueueIPCReply(req, len)]. *)
Definition reply_on_success (req len : Z) (m : M Z) : Prop :=
  forall s r s' evs, m s = Some (r, s', evs) -> r = 0 ->
    exists pre, evs = pre ++ [EvReply req len].

(** The transfers [libusb_cancel_transfer] is called on, in order. *)
Definition cancelled (evs : list event) : list transfer_ptr :=
  omap (fun e => match e with EvHost (HCancelTransfer p) => Some p | _ => None end) evs.

(** The libusb calls of a log. *)
Definition host_calls (evs : list event) : list host_call :=
  omap (fun e => match e with EvHost c => Some c | _ => None end) evs.

(** The [EnqueueIPCReply] calls of a log. *)
Definition replies (evs : list event) : list (Z * Z) :=
  omap (fun e => match e with EvReply r v => Some (r, v) | _ => None end) evs.

(** The trackers are consistent with the allocator: every tracked transfer
    was handed out by [libusb_alloc_transfer] (its pointer is below
    [m_next_transfer]) and is tracked under one endpoint at most. *)
Definition trackers_ok (eps : gmap Z TransferEndpoint) (next : transfer_ptr) : Prop :=
  (forall ep te p, eps !! ep = Some te -> p ∈ dom te -> (p < next)%N) /\
  (forall ep1 ep2 te1 te2 p, eps !! ep1 = Some te1 -> eps !! ep2 = Some te2 ->
     p ∈ dom te1 -> p ∈ dom te2 -> ep1 = ep2).

Definition tracker_invariant (s : LibusbDevice) : Prop :=
  trackers_ok (m_transfer_endpoints s) (m_next_transfer s).

(** [m] keeps [tracker_invariant] whenever it returns. *)
Definition keeps_trackers_ok {A} (m : M A) : Prop :=
  forall s a s' evs, tracker_invariant s -> m s = Some (a, s', evs) -> tracker_invariant s'.

(** [m] enqueues no IPC reply. *)
Definition replies_free {A} (m : M A) : Prop :=
  forall s a s' evs, m s = Some (a, s', evs) -> replies evs = [].

(** A zero result of [m] comes with exactly one IPC reply, [(req, len)];
    any other result with none. *)
Definition replies_exact (req len : Z) (m : M Z) : Prop :=
  forall s r s' evs, m s = Some (r, s', evs) ->
    replies evs = if decide (r = 0) then [(req, len)] else [].

(** ** A concrete device, for witnesses and counterexamples *)

(** One configuration with one interface, one alternate setting and one
    bulk IN endpoint. *)
Definition example_config : libusb_config_descriptor :=
  {| bConfigurationValue := 1;
     interface :=
       [{| altsetting :=
             [{| bInterfaceNumber := 0; bAlternateSetting := 0;
                 endpoint := [{| bEndpointAddress := 0x81; bmAttributes := 2;
                                 wMaxPacketSize := 64 |}] |}] |}] |}.

(** A host on which every call succeeds, except reading configuration 1. *)
Definition example_host : Host :=
  {| libusb_get_bus_number := 1;
     libusb_get_device_address := 2;
     libusb_get_config_descriptor :=
       fun i => if decide (i = 0) then (0, example_config) else (-1, example_config);
     libusb_open := 0;
     libusb_detach_kernel_driver := fun _ => 0;
     libusb_claim_interface := fun _ => 0;
     libusb_release_interface := fun _ => 0;
     libusb_set_interface_alt_setting := fun _ _ => 0;
     libusb_set_configuration := fun _ => 0;
     libusb_submit_transfer := fun _ => 0 |}.

Definition example_descriptor : libusb_device_descriptor :=
  {| idVendor := 0x057e; idProduct := 0x0305; bNumConfigurations := 2 |}.

Definition example_device : LibusbDevice := make_device example_host example_descriptor.

Definition example_bulk : BulkMessage :=
  {| bulk_ios_request := 0x100; bulk_endpoint := 0x81; bulk_length := 64 |}.

(** The host's completion of the first transfer, submitted by [example_bulk]. *)
Definition example_bulk_done : libusb_transfer :=
  {| t_ptr := 1%N; t_endpoint := 0x81; t_type := LIBUSB_TRANSFER_TYPE_BULK;
     t_status := LIBUSB_TRANSFER_COMPLETED; t_length := 64; t_actual_length := 64;
     iso_packet_desc := [] |}.

(** The same host, on which releasing an interface fails with
    [LIBUSB_ERROR_IO]. *)
Definition release_failing_host : Host :=
  {| libusb_get_bus_number := 1;
     libusb_get_device_address := 2;
     libusb_get_config_descriptor :=
       fun i => if decide (i = 0) then (0, example_config) else (-1, example_config);
     libusb_open := 0;
     libusb_detach_kernel_driver := fun _ => 0;
     libusb_claim_interface := fun _ => 0;
     libusb_release_interface := fun _ => -1;
     libusb_set_interface_alt_setting := fun _ _ => 0;
     libusb_set_configuration := fun _ => 0;
     libusb_submit_transfer := fun _ => 0 |}.

(** [example_device] after a successful [Attach(0)]. *)
Definition example_attached : LibusbDevice :=
  match Attach example_host 0 example_device with
  | Some (_, s, _) => s
  | None => example_device
  end.

(** The same device plugged in at another address on the same bus. *)
Definition other_port_host : Host :=
  {| libusb_get_bus_number := 1;
     libusb_get_device_address := 3;
     libusb_get_config_descriptor :=
       fun i => if decide (i = 0) then (0, example_config) else (-1, example_config);
     libusb_open := 0;
     libusb_detach_kernel_driver := fun _ => 0;
     libusb_claim_interface := fun _ => 0;
     libusb_release_interface := fun _ => 0;
     libusb_set_interface_alt_setting := fun _ _ => 0;
     libusb_set_configuration := fun _ => 0;
     libusb_submit_transfer := fun _ => 0 |}.

(** An isochronous transfer of two packets on endpoint [0x82]. *)
Definition example_iso : IsoMessage :=
  {| iso_ios_request := 0x300; iso_endpoint := 0x82; iso_length := 16;
     num_packets := 2; packet_sizes := [8; 8] |}.

(** [example_attached] after submitting [example_iso]. *)
Definition example_iso_submitted : LibusbDevice :=
  match SubmitTransferIso example_host example_iso example_attached with
  | Some (_, s, _) => s
  | None => example_attached
  end.

(** The host's completion of [example_iso]: five bytes in each packet. *)
Definition example_iso_done : libusb_transfer :=
  {| t_ptr := 1%N; t_endpoint := 0x82; t_type := LIBUSB_TRANSFER_TYPE_ISOCHRONOUS;
     t_status := LIBUSB_TRANSFER_COMPLETED; t_length := 16; t_actual_length := 10;
     iso_packet_desc := [{| iso_desc_length := 8; actual_length_pkt := 5 |};
                         {| iso_desc_length := 8; actual_length_pkt := 5 |}] |}.

(** A standard SET_CONFIGURATION(1) request. *)
Definition example_set_configuration : CtrlMessage :=
  {| ctrl_ios_request := 0x200; request_type := 0; request := 9; value := 1;
     index := 0; ctrl_length := 8; data_address := 0 |}.

(** A standard SET_INTERFACE request selecting alternate setting 0; the
    high byte of [wIndex] is set, the low byte names interface 0. *)
Definition example_set_interface : CtrlMessage :=
  {| ctrl_ios_request := 0x210; request_type := 1; request := 11; value := 0;
     index := 0x100; ctrl_length := 8; data_address := 0 |}.

(** The same host, on which claiming an interface fails with
    [LIBUSB_ERROR_BUSY]. *)
Definition claim_failing_host : Host :=
  {| libusb_get_bus_number := 1;
     libusb_get_device_address := 2;
     libusb_get_config_descriptor :=
       fun i => if decide (i = 0) then (0, example_config) else (-1, example_config);
     libusb_open := 0;
     libusb_detach_kernel_driver := fun _ => 0;
     libusb_claim_interface := fun _ => -6;
     libusb_release_interface := fun _ => 0;
     libusb_set_interface_alt_setting := fun _ _ => 0;
     libusb_set_configuration := fun _ => 0;
     libusb_submit_transfer := fun _ => 0 |}.

(** [example_attached] after submitting [example_bulk]: transfer 1 is
    tracked on endpoint [0x81]. *)
Definition example_bulk_submitted : LibusbDevice :=
  match SubmitTransferBulk example_host example_bulk example_attached with
  | Some (_, s, _) => s
  | None => example_attached
  end.

(** A standard GET_DESCRIPTOR(device) request, sent as a plain control
    transfer: 8 setup bytes and 18 bytes of data. *)
Definition example_ctrl : CtrlMessage :=
  {| ctrl_ios_request := 0x220; request_type := 0x80; request := 6; value := 0x100;
     index := 0; ctrl_length := 18; data_address := 0 |}.

(** [example_attached] after submitting [example_ctrl]: transfer 1 is
    tracked on endpoint 0. *)
Definition example_ctrl_submitted : LibusbDevice :=
  match SubmitTransferCtrl example_host example_ctrl example_attached with
  | Some (_, s, _) => s
  | None => example_attached
  end.

(** The host's completion of [example_ctrl]. *)
Definition example_ctrl_done : libusb_transfer :=
  {| t_ptr := 1%N; t_endpoint := 0; t_type := LIBUSB_TRANSFER_TYPE_CONTROL;
     t_status := LIBUSB_TRANSFER_COMPLETED; t_length := 26; t_actual_length := 18;
     iso_packet_desc := [] |}.

(** A configuration with two interfaces of one alternate setting each. *)
Definition two_interface_config : libusb_config_descriptor :=
  {| bConfigurationValue := 1;
     interface :=
       [{| altsetting :=
             [{| bInterfaceNumber := 0; bAlternateSetting := 0;
                 endpoint := [{| bEndpointAddress := 0x81; bmAttributes := 2;
                                 wMaxPacketSize := 64 |}] |}] |};
        {| altsetting :=
             [{| bInterfaceNumber := 1; bAlternateSetting := 0;
                 endpoint := [{| bEndpointAddress := 0x82; bmAttributes := 3;
                                 wMaxPacketSize := 8 |}] |}] |}] |}.

(** A host whose device has [two_interface_config]; every call succeeds. *)
Definition two_interface_host : Host :=
  {| libusb_get_bus_number := 1;
     libusb_get_device_address := 2;
     libusb_get_config_descriptor :=
       fun i => if decide (i = 0) then (0, two_interface_config)
                else (-1, two_interface_config);
     libusb_open := 0;
     libusb_detach_kernel_driver := fun _ => 0;
     libusb_claim_interface := fun _ => 0;
     libusb_release_interface := fun _ => 0;
     libusb_set_interface_alt_setting := fun _ _ => 0;
     libusb_set_configuration := fun _ => 0;
     libusb_submit_transfer := fun _ => 0 |}.

(** That device after a successful [Attach(0)]. *)
Definition two_interface_attached : LibusbDevice :=
  let s0 := make_device two_interface_host example_descriptor in
  match Attach two_interface_host 0 s0 with
  | Some (_, s, _) => s
  | None => s0
  end.

(** SET_INTERFACE for interface 1, alternate setting 0. *)
Definition example_set_interface_1 : CtrlMessage :=
  {| ctrl_ios_request := 0x230; request_type := 1; request := 11; value := 0;
     index := 1; ctrl_length := 8; data_address := 0 |}.

(** ** Properties *)

Lemma completions_app (l1 l2 : list event) :
  completions (l1 ++ l2) = completions l1 ++ completions l2.
Proof. unfold completions. apply omap_app. Qed.

Lemma completions_guest (ws : list guest_write) :
  completions (map EvGuest ws) = [].
Proof. induction ws; simpl; auto. Qed.

(** C1: [HandleTransfer] dispatches [OnTransferComplete] once, as its last
    action, and erases the entry; called again with the same transfer it
    finds nothing, only logs, and leaves the endpoint unchanged.  A
    transfer that is not tracked is a logged no-op from the start.  (The
    only other outcome is undefined behaviour inside the completion
    function.) *)
Theorem HandleTransfer_removes_once (te : TransferEndpoint) (t : libusb_transfer)
    (fn fn' : completion_fn) :
  match te !! t_ptr t with
  | None => HandleTransfer te t fn = Some (te, [EvLog "No such transfer"%string])
  | Some cmd =>
      match HandleTransfer te t fn with
      | None => t_status t = LIBUSB_TRANSFER_COMPLETED /\ fn cmd = None
      | Some (te1, evs1) =>
          te1 = delete (t_ptr t) te /\
          (exists rv pre, evs1 = pre ++ [EvTransferComplete (ios_request cmd) rv] /\
                          completions pre = []) /\
          HandleTransfer te1 t fn' = Some (te1, [EvLog "No such transfer"%string])
      end
  end.
Proof.
  unfold HandleTransfer.
  destruct (te !! t_ptr t) as [cmd|] eqn:Hf; [|reflexivity].
  destruct (t_status t) eqn:Hs;
    try (repeat split;
         [ eexists _, _; split; [reflexivity|reflexivity]
         | rewrite lookup_delete_eq; reflexivity ]).
  destruct (fn cmd) as [[rv ws]|] eqn:Hfn; [|auto].
  repeat split.
  - exists rv, (map EvGuest ws). split; [reflexivity|apply completions_guest].
  - rewrite lookup_delete_eq. reflexivity.
Qed.

(** C3: the status of a tracked transfer decides the return value passed
    to [OnTransferComplete]: the completion function's value on
    [COMPLETED], -5 on error, cancellation, time-out and overflow, -7004
    on stall, [IPC_ENOENT] on no-device; the three codes are distinct. *)
Theorem HandleTransfer_status_codes (te : TransferEndpoint) (t : libusb_transfer)
    (fn : completion_fn) (cmd : TransferCommand)
    (Hfound : te !! t_ptr t = Some cmd) :
  (t_status t = LIBUSB_TRANSFER_COMPLETED ->
     forall rv ws, fn cmd = Some (rv, ws) ->
       HandleTransfer te t fn =
         Some (delete (t_ptr t) te,
               map EvGuest ws ++ [EvTransferComplete (ios_request cmd) rv])) /\
  (t_status t = LIBUSB_TRANSFER_ERROR \/ t_status t = LIBUSB_TRANSFER_CANCELLED \/
   t_status t = LIBUSB_TRANSFER_TIMED_OUT \/ t_status t = LIBUSB_TRANSFER_OVERFLOW ->
     HandleTransfer te t fn =
       Some (delete (t_ptr t) te,
             [EvLog "transfer failed"%string; EvTransferComplete (ios_request cmd) (-5)])) /\
  (t_status t = LIBUSB_TRANSFER_STALL ->
     HandleTransfer te t fn =
       Some (delete (t_ptr t) te,
             [EvLog "transfer failed"%string; EvTransferComplete (ios_request cmd) (-7004)])) /\
  (t_status t = LIBUSB_TRANSFER_NO_DEVICE ->
     HandleTransfer te t fn =
       Some (delete (t_ptr t) te, [EvTransferComplete (ios_request cmd) IPC_ENOENT])) /\
  IPC_ENOENT <> -5 /\ IPC_ENOENT <> -7004 /\ -7004 <> -5.
Proof.
  unfold HandleTransfer. rewrite Hfound.
  split; [|split; [|split; [|split]]].
  - intros Hs rv ws Hfn. rewrite Hs, Hfn. reflexivity.
  - intros [Hs|[Hs|[Hs|Hs]]]; rewrite Hs; reflexivity.
  - intros Hs. rewrite Hs. reflexivity.
  - intros Hs. rewrite Hs. reflexivity.
  - unfold IPC_ENOENT. lia.
Qed.

(** The per-packet loop of [TransferCallback]: one write per packet, the
    [i]-th carrying the host-reported [actual_length] of packet [i]. *)
Lemma iso_packet_writes (req : Z) (descs : list libusb_iso_packet_descriptor) (n : nat) :
  (n <= length descs)%nat ->
  exists ws,
    mapM (fun i => desc ← descs !! i;
                   Some (SetPacketReturnValue req i (actual_length_pkt desc))) (seq 0 n)
      = Some ws /\
    length ws = n /\
    forall i d, (i < n)%nat -> descs !! i = Some d ->
      ws !! i = Some (SetPacketReturnValue req i (actual_length_pkt d)).
Proof.
  intros Hn.
  destruct (mapM_is_Some_2
              (fun i => desc ← descs !! i;
                        Some (SetPacketReturnValue req i (actual_length_pkt desc)))
              (seq 0 n)) as [ws Hws].
  { apply Forall_seq. intros j [_ Hj]. simpl.
    destruct (lookup_lt_is_Some_2 descs j) as [d Hd]; [lia|].
    rewrite Hd. simpl. eauto. }
  exists ws. split; [exact Hws|].
  apply mapM_Some_1 in Hws.
  split.
  - apply Forall2_length in Hws. rewrite length_seq in Hws. lia.
  - intros i d Hi Hd.
    destruct (Forall2_lookup_l _ _ _ i i Hws) as [w [Hw Hf]].
    { rewrite lookup_seq_lt by lia. reflexivity. }
    rewrite Hw. simpl in Hf. rewrite Hd in Hf. simpl in Hf. congruence.
Qed.

(** C2: a completed isochronous transfer reports [IPC_SUCCESS] (zero) to
    [OnTransferComplete], whatever the byte counts, after copying the
    buffer back and writing, for each packet [i < num_packets], the
    host-reported [actual_length] of packet [i] with
    [SetPacketReturnValue(i, ...)]. *)
Theorem TransferCallback_iso_completed (s : LibusbDevice) (t : libusb_transfer)
    (m : IsoMessage)
    (Hfound : endpoint_at (m_transfer_endpoints s) (t_endpoint t) !! t_ptr t = Some (Iso m))
    (Htype : t_type t = LIBUSB_TRANSFER_TYPE_ISOCHRONOUS)
    (Hstatus : t_status t = LIBUSB_TRANSFER_COMPLETED)
    (Hdesc : (num_packets m <= length (iso_packet_desc t))%nat) :
  exists s' ws,
    TransferCallback t s =
      Some (tt, s',
            EvGuest (FillBuffer (iso_ios_request m) (iso_length m)) :: map EvGuest ws ++
            [EvTransferComplete (iso_ios_request m) IPC_SUCCESS]) /\
    length ws = num_packets m /\
    forall i d, (i < num_packets m)%nat -> iso_packet_desc t !! i = Some d ->
      ws !! i = Some (SetPacketReturnValue (iso_ios_request m) i (actual_length_pkt d)).
Proof.
  destruct (iso_packet_writes (iso_ios_request m) (iso_packet_desc t) (num_packets m) Hdesc)
    as (ws & Hws & Hlen & Hnth).
  eexists. exists ws. split; [|split; [exact Hlen|exact Hnth]].
  unfold TransferCallback, handle_on_endpoint, HandleTransfer.
  cbv [mbind M_bind get].
  rewrite Hfound, Hstatus. unfold transfer_completion. rewrite Htype, Hws.
  reflexivity.
Qed.

(** ** Frame: actions that leave the transfer trackers alone *)


Lemma frame_ret {A} (a : A) : tracker_frame (mret a).
Proof. intros s a' s' evs H. cbv in H. inversion H; subst. split; [|split]; auto. set_solver. Qed.

Lemma frame_fault {A} : tracker_frame (@fault A).
Proof. intros s a s' evs H. discriminate. Qed.

Lemma frame_get : tracker_frame get.
Proof. intros s a s' evs H. cbv in H. inversion H; subst. split; [|split]; auto. set_solver. Qed.

Lemma frame_emit (e : event) : (forall p, e <> EvHost (HSubmitTransfer p)) -> tracker_frame (emit e).
Proof.
  intros He s a s' evs H. cbv in H. inversion H; subst.
  split; [|split]; auto. intros p Hin. apply list_elem_of_singleton in Hin. eapply He; eauto.
Qed.

Lemma frame_log (msg : string) : tracker_frame (log msg).
Proof. apply frame_emit. discriminate. Qed.

Lemma frame_modify (f : LibusbDevice -> LibusbDevice) :
  (forall s, m_transfer_endpoints (f s) = m_transfer_endpoints s /\
             m_next_transfer (f s) = m_next_transfer s) ->
  tracker_frame (modify f).
Proof.
  intros Hf s a s' evs H. cbv in H. inversion H; subst.
  destruct (Hf s). split; [|split]; auto. set_solver.
Qed.

Lemma frame_bind {A B} (m : M A) (k : A -> M B) :
  tracker_frame m -> (forall a, tracker_frame (k a)) -> tracker_frame (m ≫= k).
Proof.
  intros Hm Hk s b s2 evs H. cbv [mbind M_bind] in H.
  destruct (m s) as [[[a s1] l1]|] eqn:E1; [|discriminate].
  destruct (k a s1) as [[[b' s2'] l2]|] eqn:E2; [|discriminate].
  inversion H; subst.
  destruct (Hm _ _ _ _ E1) as (H1 & H1' & H1'').
  destruct (Hk _ _ _ _ _ E2) as (H2 & H2' & H2'').
  split; [congruence|split; [congruence|]].
  intros p Hin. apply elem_of_app in Hin as [Hin|Hin]; [eapply H1''|eapply H2'']; eauto.
Qed.

Create HintDb frame.
#[export] Hint Resolve frame_ret frame_fault frame_get frame_log : frame.

(** Split binds and branches until the primitives are left. *)
Ltac frame_solve :=
  repeat (match goal with
          | |- tracker_frame (_ ≫= _) => apply frame_bind; [|intro]
          | |- tracker_frame (if ?c then _ else _) => destruct c
          | |- tracker_frame (match ?x with _ => _ end) => destruct x
          | |- tracker_frame (emit _) => apply frame_emit; intros ? ?; discriminate
          | |- tracker_frame (modify _) => apply frame_modify; intros; split; reflexivity
          | |- tracker_frame (let '(_, _) := ?x in _) => destruct x
          end; auto with frame).

Lemma AttachInterface_frame (host : Host) (i : Z) : tracker_frame (AttachInterface host i).
Proof. unfold AttachInterface. frame_solve. Qed.

Lemma DetachInterface_frame (host : Host) : tracker_frame (DetachInterface host).
Proof. unfold DetachInterface. frame_solve. Qed.

Lemma ChangeInterface_frame (host : Host) (i : Z) : tracker_frame (ChangeInterface host i).
Proof.
  unfold ChangeInterface. frame_solve; auto using DetachInterface_frame, AttachInterface_frame.
Qed.

Lemma SetAltSetting_frame (host : Host) (a : Z) : tracker_frame (SetAltSetting host a).
Proof. unfold SetAltSetting. frame_solve. Qed.

Lemma set_interface_request_frame (host : Host) (cmd : CtrlMessage) :
  tracker_frame (set_interface_request host cmd).
Proof.
  unfold set_interface_request. cbv zeta.
  frame_solve; auto using ChangeInterface_frame, SetAltSetting_frame.
Qed.

Lemma set_configuration_request_frame (host : Host) (cmd : CtrlMessage) :
  tracker_frame (set_configuration_request host cmd).
Proof. unfold set_configuration_request. cbv zeta. frame_solve. Qed.

(** ** Replies *)


Lemma reply_bind {A} (req len : Z) (m : M A) (k : A -> M Z) :
  (forall a, reply_on_success req len (k a)) -> reply_on_success req len (m ≫= k).
Proof.
  intros Hk s r s2 evs H Hr. cbv [mbind M_bind] in H.
  destruct (m s) as [[[a s1] l1]|]; [|discriminate].
  destruct (k a s1) as [[[r' s2'] l2]|] eqn:E2; [|discriminate].
  inversion H; subst.
  destruct (Hk _ _ _ _ _ E2 eq_refl) as [pre ->].
  exists (l1 ++ pre). by rewrite app_assoc.
Qed.

Lemma reply_ret_nonzero (req len r : Z) : r <> 0 -> reply_on_success req len (mret r).
Proof. intros Hr s r' s' evs H Hz. cbv in H. inversion H; subst. contradiction. Qed.

Lemma reply_fault (req len : Z) : reply_on_success req len fault.
Proof. intros s r s' evs H. discriminate. Qed.

Lemma reply_after (req len ret : Z) :
  reply_on_success req len
    ((if decide (ret = 0) then emit (EvReply req len) else mret ());; mret ret).
Proof.
  intros s r s' evs H Hr.
  destruct (decide (ret = 0)); cbv in H; inversion H; subst.
  - exists []. reflexivity.
  - contradiction.
Qed.

Lemma set_interface_request_reply (host : Host) (cmd : CtrlMessage) :
  reply_on_success (ctrl_ios_request cmd) (ctrl_length cmd) (set_interface_request host cmd).
Proof.
  unfold set_interface_request. cbv zeta.
  apply reply_bind. intros s.
  destruct (decide _).
  - apply reply_bind. intros ret. destruct (decide (ret < 0)).
    + apply reply_bind. intros _. apply reply_ret_nonzero. lia.
    + apply reply_bind. intros r. apply reply_after.
  - apply reply_bind. intros r. apply reply_after.
Qed.

Lemma set_configuration_request_reply (host : Host) (cmd : CtrlMessage) :
  reply_on_success (ctrl_ios_request cmd) (ctrl_length cmd) (set_configuration_request host cmd).
Proof.
  unfold set_configuration_request. cbv zeta.
  apply reply_bind. intros _. apply reply_after.
Qed.

(** [ChangeInterface] succeeds only by attaching the new interface. *)
Lemma ChangeInterface_nonneg (host : Host) (j : Z) (s s1 : LibusbDevice) (r : Z)
    (evc : list event) :
  ChangeInterface host j s = Some (r, s1, evc) -> 0 <= r ->
  r = 0 /\ s1 = set_active_interface j s /\ m_device_attached s = true /\
  (forall c, EvHost c ∈ evc -> c = HReleaseInterface (m_active_interface s) \/
                              c = HDetachKernelDriver j \/ c = HClaimInterface j) /\
  (forall req len, EvReply req len ∉ evc).
Proof.
  unfold ChangeInterface, DetachInterface, AttachInterface.
  cbv [mbind M_bind get log emit modify mret M_ret fault].
  intros H Hr.
  destruct (m_device_attached s) eqn:Ha; simpl in H;
    [|inversion H; subst; unfold LIBUSB_ERROR_NOT_FOUND in Hr; lia].
  destruct (m_config_descriptors s !! 0%nat) as [[d0|]|]; [|discriminate|discriminate].
  destruct (m_handle s) eqn:Hh; simpl in H;
    repeat (match type of H with context [decide ?P] => destruct (decide P) end;
            simpl in H; rewrite ?Hh in H; simpl in H);
    inversion H; subst; unfold LIBUSB_ERROR_NOT_FOUND in *; try lia.
  split; [reflexivity|split; [reflexivity|split; [reflexivity|split]]].
  - intros c Hc. rewrite !list_elem_of_In in Hc. simpl in Hc.
    intuition congruence.
  - intros req len Hc. rewrite !list_elem_of_In in Hc. simpl in Hc.
    intuition congruence.
Qed.

(** The only host calls of [ChangeInterface]: release, kernel-driver detach, claim. *)
Lemma ChangeInterface_calls (host : Host) (j : Z) (s s1 : LibusbDevice) (r : Z)
    (evc : list event) :
  ChangeInterface host j s = Some (r, s1, evc) ->
  (forall c, EvHost c ∈ evc -> c = HReleaseInterface (m_active_interface s) \/
                              c = HDetachKernelDriver j \/ c = HClaimInterface j) /\
  (forall req len, EvReply req len ∉ evc).
Proof.
  unfold ChangeInterface, DetachInterface, AttachInterface.
  cbv [mbind M_bind get log emit modify mret M_ret fault].
  intros H.
  destruct (m_device_attached s); simpl in H;
    [|inversion H; subst; split; intros *; rewrite list_elem_of_In; simpl; tauto].
  destruct (m_config_descriptors s !! 0%nat) as [[d0|]|]; [|discriminate|discriminate].
  destruct (m_handle s) eqn:Hh; simpl in H;
    repeat (match type of H with context [decide ?P] => destruct (decide P) end;
            simpl in H; rewrite ?Hh in H; simpl in H);
    inversion H; subst;
    split; intros *; rewrite list_elem_of_In; simpl; intuition congruence.
Qed.

(** The SET_INTERFACE path sets the requested alternate setting on the
    requested interface, and a zero result ends with that call and the reply. *)
Lemma set_interface_request_shape (host : Host) (cmd : CtrlMessage) (s s' : LibusbDevice)
    (r : Z) (evs : list event) :
  set_interface_request host cmd s = Some (r, s', evs) ->
  (forall i a, EvHost (HSetInterfaceAltSetting i a) ∈ evs ->
     i = u8 (index cmd) /\ a = u8 (value cmd) /\
     r = libusb_set_interface_alt_setting host i a) /\
  (r = 0 -> exists pre,
     evs = pre ++ [EvHost (HSetInterfaceAltSetting (u8 (index cmd)) (u8 (value cmd)));
                   EvReply (ctrl_ios_request cmd) (ctrl_length cmd)] /\
     libusb_set_interface_alt_setting host (u8 (index cmd)) (u8 (value cmd)) = 0).
Proof.
  set (ret0 := libusb_set_interface_alt_setting host (u8 (index cmd)) (u8 (value cmd))).
  assert (Halt : forall pre,
    (forall c, EvHost c ∈ pre -> forall i a, c <> HSetInterfaceAltSetting i a) ->
    evs = pre ++ [EvLog "Setting alt setting"%string;
                  EvHost (HSetInterfaceAltSetting (u8 (index cmd)) (u8 (value cmd)))] ++
                 (if decide (ret0 = 0)
                  then [EvReply (ctrl_ios_request cmd) (ctrl_length cmd)] else []) ->
    r = ret0 ->
    (forall i a, EvHost (HSetInterfaceAltSetting i a) ∈ evs ->
       i = u8 (index cmd) /\ a = u8 (value cmd) /\
       r = libusb_set_interface_alt_setting host i a) /\
    (r = 0 -> exists pre',
       evs = pre' ++ [EvHost (HSetInterfaceAltSetting (u8 (index cmd)) (u8 (value cmd)));
                      EvReply (ctrl_ios_request cmd) (ctrl_length cmd)] /\
       ret0 = 0)).
  { intros pre Hpre -> ->. split.
    - intros i a Hin. apply elem_of_app in Hin as [Hin|Hin];
        [exfalso; exact (Hpre _ Hin i a eq_refl)|].
      rewrite list_elem_of_In in Hin. simpl in Hin.
      destruct Hin as [Hin|[Hin|Hin]]; [discriminate| |].
      + injection Hin as <- <-. auto.
      + destruct (decide (ret0 = 0)); simpl in Hin; intuition discriminate.
    - intros Hz. rewrite decide_True by exact Hz.
      exists (pre ++ [EvLog "Setting alt setting"%string]).
      rewrite <- app_assoc. split; [reflexivity|exact Hz]. }
  unfold set_interface_request, SetAltSetting. cbv zeta.
  cbv [mbind M_bind get log emit emit_all mret M_ret].
  destruct (decide (u8 (index cmd) ≠ m_active_interface s)) as [Hne|Heq].
  - destruct (ChangeInterface host (u8 (index cmd)) s) as [[[rc s1] evc]|] eqn:Ec;
      [|discriminate].
    destruct (ChangeInterface_calls _ _ _ _ _ _ Ec) as [Hcalls _].
    destruct (decide (rc < 0)).
    + intros H. inversion H; subst. split.
      * intros i a Hin. apply elem_of_app in Hin as [Hin|Hin].
        -- destruct (Hcalls _ Hin) as [?|[?|?]]; discriminate.
        -- rewrite list_elem_of_In in Hin. simpl in Hin. intuition discriminate.
      * intros ->. lia.
    + destruct (ChangeInterface_nonneg _ _ _ _ _ _ Ec) as (_ & -> & Hatt & _); [lia|].
      simpl. rewrite Hatt. simpl. fold ret0.
      intros H. apply (Halt evc).
      * intros c Hc i a ->. destruct (Hcalls _ Hc) as [?|[?|?]]; discriminate.
      * destruct (decide (ret0 = 0)); simpl in H; inversion H; subst;
          rewrite ?app_nil_r; reflexivity.
      * destruct (decide (ret0 = 0)); simpl in H; inversion H; subst; reflexivity.
  - apply dec_stable in Heq.
    destruct (m_device_attached s); simpl.
    + rewrite <- Heq. fold ret0. intros H. apply (Halt []).
      * intros c Hc. inversion Hc.
      * destruct (decide (ret0 = 0)); simpl in H; inversion H; subst; reflexivity.
      * destruct (decide (ret0 = 0)); simpl in H; inversion H; subst; reflexivity.
    + intros H. inversion H; subst. split.
      * intros i a Hin. inversion Hin.
      * unfold LIBUSB_ERROR_NOT_FOUND. lia.
Qed.

Lemma intercepted_requests_frame (host : Host) (s : LibusbDevice)
    (cmd : CtrlMessage)
    (Hkey : ctrl_request_key cmd = SET_INTERFACE_HDR \/
            ctrl_request_key cmd = SET_CONFIGURATION_HDR)
    (ret : Z) (s' : LibusbDevice) (evs : list event)
    (Hrun : SubmitTransferCtrl host cmd s = Some (ret, s', evs)) :
  m_transfer_endpoints s' = m_transfer_endpoints s /\
  m_next_transfer s' = m_next_transfer s /\
  (forall p, EvHost (HSubmitTransfer p) ∉ evs) /\
  (ret = 0 -> exists pre, evs = pre ++ [EvReply (ctrl_ios_request cmd) (ctrl_length cmd)]).
Proof.
  unfold SubmitTransferCtrl in Hrun. cbv [mbind M_bind get] in Hrun.
  destruct (m_device_attached s); simpl in Hrun.
  - destruct (decide (ctrl_request_key cmd = SET_INTERFACE_HDR)) as [Hsi|Hsi].
    + destruct (set_interface_request host cmd s) as [[[r1 s1] l1]|] eqn:E; [|discriminate].
      inversion Hrun; subst.
      destruct (set_interface_request_frame host cmd _ _ _ _ E) as (? & ? & ?).
      split; [|split; [|split]]; auto.
      intros ->. eapply set_interface_request_reply; eauto.
    + destruct (decide (ctrl_request_key cmd = SET_CONFIGURATION_HDR)) as [Hsc|Hsc];
        [|tauto].
      destruct (set_configuration_request host cmd s) as [[[r1 s1] l1]|] eqn:E;
        [|discriminate].
      inversion Hrun; subst.
      destruct (set_configuration_request_frame host cmd _ _ _ _ E) as (? & ? & ?).
      split; [|split; [|split]]; auto.
      intros ->. eapply set_configuration_request_reply; eauto.
  - inversion Hrun; subst. split; [|split; [|split]]; auto.
    + set_solver.
    + unfold LIBUSB_ERROR_NOT_FOUND. lia.
Qed.

Lemma intercepted_requests_calls (host : Host) (s : LibusbDevice)
    (cmd : CtrlMessage)
    (Hkey : ctrl_request_key cmd = SET_INTERFACE_HDR \/
            ctrl_request_key cmd = SET_CONFIGURATION_HDR)
    (ret : Z) (s' : LibusbDevice) (evs : list event)
    (Hrun : SubmitTransferCtrl host cmd s = Some (ret, s', evs)) :
  (m_device_attached s = true -> ctrl_request_key cmd = SET_CONFIGURATION_HDR ->
     ret = libusb_set_configuration host (value cmd) /\
     host_calls evs = [HSetConfiguration (value cmd)]) /\
  (forall i a, EvHost (HSetInterfaceAltSetting i a) ∈ evs ->
     i = u8 (index cmd) /\ a = u8 (value cmd) /\
     ret = libusb_set_interface_alt_setting host i a) /\
  (ret = 0 -> exists pre c,
     evs = pre ++ [EvHost c; EvReply (ctrl_ios_request cmd) (ctrl_length cmd)] /\
     ((c = HSetConfiguration (value cmd) /\ libusb_set_configuration host (value cmd) = 0) \/
      (c = HSetInterfaceAltSetting (u8 (index cmd)) (u8 (value cmd)) /\
       libusb_set_interface_alt_setting host (u8 (index cmd)) (u8 (value cmd)) = 0))).
Proof.
  assert (Hdiff : SET_INTERFACE_HDR <> SET_CONFIGURATION_HDR) by (vm_compute; discriminate).
  unfold SubmitTransferCtrl in Hrun. cbv [mbind M_bind get] in Hrun.
  destruct (m_device_attached s); simpl in Hrun.
  - destruct (decide (ctrl_request_key cmd = SET_INTERFACE_HDR)) as [Hsi|Hsi].
    + destruct (set_interface_request host cmd s) as [[[r1 s1] l1]|] eqn:E; [|discriminate].
      inversion Hrun; subst.
      destruct (set_interface_request_shape _ _ _ _ _ _ E) as [Halt Hz].
      split; [intros _ Hsc; congruence|split; [exact Halt|]].
      intros Hr. destruct (Hz Hr) as (pre & -> & Hok).
      exists pre, (HSetInterfaceAltSetting (u8 (index cmd)) (u8 (value cmd))).
      split; [reflexivity|right; split; [reflexivity|exact Hok]].
    + destruct (decide (ctrl_request_key cmd = SET_CONFIGURATION_HDR)) as [Hsc|Hsc];
        [|tauto].
      unfold set_configuration_request in Hrun.
      cbv [mbind M_bind get emit mret M_ret] in Hrun. cbv zeta in Hrun.
      destruct (decide (libusb_set_configuration host (value cmd) = 0)) as [Hz|Hz];
        simpl in Hrun; inversion Hrun; subst.
      * split; [split; reflexivity|split].
        -- intros i a Hin. rewrite list_elem_of_In in Hin. simpl in Hin.
           intuition discriminate.
        -- intros _. exists [], (HSetConfiguration (value cmd)).
           split; [reflexivity|left; split; [reflexivity|exact Hz]].
      * split; [split; reflexivity|split].
        -- intros i a Hin. rewrite list_elem_of_In in Hin. simpl in Hin.
           intuition discriminate.
        -- intros Hr. contradiction.
  - inversion Hrun; subst. split; [discriminate|split].
    + intros i a Hin. inversion Hin.
    + unfold LIBUSB_ERROR_NOT_FOUND. lia.
Qed.

(** C4: a standard host-to-device SET_INTERFACE or SET_CONFIGURATION
    request is served by host configuration calls: no transfer is
    allocated, no tracker changes, no host transfer is submitted.
    SET_CONFIGURATION on an attached device calls
    [libusb_set_configuration] and returns its result; any
    [libusb_set_interface_alt_setting] call made is the requested one and
    its result is returned.  A zero result ends with the configuration
    call that returned 0, then an immediate reply whose value is the
    command's length. *)
Theorem SubmitTransferCtrl_intercepts_standard_requests (host : Host) (s : LibusbDevice)
    (cmd : CtrlMessage)
    (Hkey : ctrl_request_key cmd = SET_INTERFACE_HDR \/
            ctrl_request_key cmd = SET_CONFIGURATION_HDR)
    (ret : Z) (s' : LibusbDevice) (evs : list event)
    (Hrun : SubmitTransferCtrl host cmd s = Some (ret, s', evs)) :
  m_transfer_endpoints s' = m_transfer_endpoints s /\
  m_next_transfer s' = m_next_transfer s /\
  (forall p, EvHost (HSubmitTransfer p) ∉ evs) /\
  (ret = 0 -> exists pre, evs = pre ++ [EvReply (ctrl_ios_request cmd) (ctrl_length cmd)]) /\
  (m_device_attached s = true -> ctrl_request_key cmd = SET_CONFIGURATION_HDR ->
     ret = libusb_set_configuration host (value cmd) /\
     host_calls evs = [HSetConfiguration (value cmd)]) /\
  (forall i a, EvHost (HSetInterfaceAltSetting i a) ∈ evs ->
     i = u8 (index cmd) /\ a = u8 (value cmd) /\
     ret = libusb_set_interface_alt_setting host i a) /\
  (ret = 0 -> exists pre c,
     evs = pre ++ [EvHost c; EvReply (ctrl_ios_request cmd) (ctrl_length cmd)] /\
     ((c = HSetConfiguration (value cmd) /\ libusb_set_configuration host (value cmd) = 0) \/
      (c = HSetInterfaceAltSetting (u8 (index cmd)) (u8 (value cmd)) /\
       libusb_set_interface_alt_setting host (u8 (index cmd)) (u8 (value cmd)) = 0))).
Proof.
  destruct (intercepted_requests_frame host s cmd Hkey ret s' evs Hrun) as (H1 & H2 & H3 & H4).
  destruct (intercepted_requests_calls host s cmd Hkey ret s' evs Hrun) as (H5 & H6 & H7).
  tauto.
Qed.

(** C5 (as amended): [CancelTransfer] answers [IPC_ENOENT], changing
    nothing, only for an endpoint with no tracker at all; an endpoint
    whose tracker exists, even an empty one, gets [IPC_SUCCESS] and one
    host cancellation request per tracked transfer.  No tracker entry is
    removed either way. *)
Theorem CancelTransfer_spec (s : LibusbDevice) (ep : Z) :
  match m_transfer_endpoints s !! ep with
  | None => CancelTransfer ep s = Some (IPC_ENOENT, s, [EvLog "Cancelling transfers"%string])
  | Some te =>
      CancelTransfer ep s =
        Some (IPC_SUCCESS, s, EvLog "Cancelling transfers"%string :: CancelTransfers te) /\
      (forall p, p ∈ dom te -> EvHost (HCancelTransfer p) ∈ CancelTransfers te) /\
      (te = ∅ -> CancelTransfers te = [])
  end.
Proof.
  unfold CancelTransfer. cbv [mbind M_bind get log emit emit_all mret M_ret].
  destruct (m_transfer_endpoints s !! ep) as [te|]; [|reflexivity].
  split; [by rewrite app_nil_r|split].
  - intros p Hp. apply elem_of_dom in Hp as [c Hc].
    unfold CancelTransfers. destruct (decide (te = ∅)) as [->|Hne].
    + rewrite lookup_empty in Hc. discriminate.
    + apply list_elem_of_further, list_elem_of_In, in_map_iff.
      exists (p, c). split; [reflexivity|].
      apply list_elem_of_In. by apply elem_of_map_to_list.
  - intros ->. unfold CancelTransfers. by rewrite decide_True.
Qed.

(** C5: an endpoint whose only transfer has completed has no tracked
    transfer left, yet [CancelTransfer] answers [IPC_SUCCESS], not
    [IPC_ENOENT]: the tracker created by the submission stays. *)
Lemma CancelTransfer_idle_endpoint_counterexample :
  exists s evs,
    (_ ← Attach example_host 0;
     _ ← SubmitTransferBulk example_host example_bulk;
     TransferCallback example_bulk_done) example_device = Some (tt, s, evs) /\
    m_transfer_endpoints s !! 0x81 = Some ∅ /\
    CancelTransfer 0x81 s = Some (IPC_SUCCESS, s, [EvLog "Cancelling transfers"%string]) /\
    IPC_SUCCESS <> IPC_ENOENT.
Proof.
  eexists _, _. split; [vm_compute; reflexivity|].
  split; [vm_compute; reflexivity|].
  split; [vm_compute; reflexivity|].
  unfold IPC_SUCCESS, IPC_ENOENT. lia.
Qed.

Lemma DetachInterface_result (host : Host) (s s' : LibusbDevice) (r : Z) (evs : list event) :
  DetachInterface host s = Some (r, s', evs) ->
  s' = s /\
  forall j, (EvHost (HClaimInterface j) ∉ evs) /\ (EvHost (HDetachKernelDriver j) ∉ evs).
Proof.
  unfold DetachInterface. cbv [mbind M_bind get log emit mret M_ret].
  destruct (m_handle s); simpl; [destruct (decide _)|];
    intros H; inversion H; subst; split; auto;
    intros j; split; intros Hin; apply list_elem_of_In in Hin; simpl in Hin;
    intuition discriminate.
Qed.

(** [AttachInterface] sets [m_active_interface] exactly when it succeeds,
    which takes a successful [libusb_claim_interface]. *)
Lemma AttachInterface_result (host : Host) (j : Z) (s s' : LibusbDevice) (r : Z)
    (evs : list event) :
  AttachInterface host j s = Some (r, s', evs) ->
  (r = 0 /\ s' = set_active_interface j s /\ m_handle s = true /\
   0 <= libusb_claim_interface host j /\
   exists pre, evs = pre ++ [EvHost (HClaimInterface j)]) \/
  (r < 0 /\ s' = s).
Proof.
  unfold AttachInterface. cbv [mbind M_bind get log emit modify mret M_ret].
  destruct (m_handle s) eqn:Hh; simpl.
  - destruct (decide _) as [Hd|Hd].
    + intros H; inversion H; subst. right. split; [lia|reflexivity].
    + destruct (decide (libusb_claim_interface host j < 0)) as [Hc|Hc];
        intros H; inversion H; subst.
      * right. split; [lia|reflexivity].
      * left. repeat split; auto; [lia|].
        exists [EvLog "Attaching interface"%string; EvHost (HDetachKernelDriver j)]. reflexivity.
  - intros H; inversion H; subst. right. split; [lia|reflexivity].
Qed.

(** [AttachInterface] never faults. *)
Lemma AttachInterface_some (host : Host) (j : Z) (s : LibusbDevice) :
  exists r s' evs, AttachInterface host j s = Some (r, s', evs).
Proof.
  unfold AttachInterface. cbv [mbind M_bind get log emit modify mret M_ret].
  destruct (m_handle s); simpl; repeat (destruct (decide _); simpl); eauto.
Qed.

(** C7: [ChangeInterface] detaches before it attaches.  The detach
    changes nothing and neither detaches a kernel driver nor claims.  When
    it fails, the change returns that error at once, with the state,
    [m_active_interface] included, unchanged; otherwise the change runs
    [AttachInterface] next and returns its result, its events after the
    detach's.  [m_active_interface] is written only by a successful
    [AttachInterface], after the host claim succeeded. *)
Theorem ChangeInterface_detach_failure (host : Host) (s : LibusbDevice) (i : Z)
    (d0 : libusb_config_descriptor)
    (Hatt : m_device_attached s = true)
    (Hcfg : m_config_descriptors s !! 0%nat = Some (Some d0))
    (Hi : i < bNumInterfaces d0)
    (r : Z) (s1 : LibusbDevice) (evd : list event)
    (Hdet : DetachInterface host s = Some (r, s1, evd)) :
  s1 = s /\
  (forall j, (EvHost (HClaimInterface j) ∉ evd) /\ (EvHost (HDetachKernelDriver j) ∉ evd)) /\
  (r < 0 -> ChangeInterface host i s = Some (r, s, EvLog "Changing interface"%string :: evd)) /\
  (0 <= r -> exists r' s' eva,
     AttachInterface host i s = Some (r', s', eva) /\
     ChangeInterface host i s = Some (r', s', EvLog "Changing interface"%string :: evd ++ eva)) /\
  (forall j s0 s' r' evs, AttachInterface host j s0 = Some (r', s', evs) ->
     (r' = 0 /\ s' = set_active_interface j s0 /\ 0 <= libusb_claim_interface host j) \/
     (r' < 0 /\ s' = s0)).
Proof.
  destruct (DetachInterface_result host s s1 r evd Hdet) as [-> Hev].
  assert (Hch : forall k : M Z,
            (forall s0, (if decide (r < 0) then mret r else AttachInterface host i) s0 = k s0) ->
            ChangeInterface host i s =
              match k s with
              | Some (b, s2, l2) => Some (b, s2, EvLog "Changing interface"%string :: evd ++ l2)
              | None => None
              end).
  { intros k Hk. unfold ChangeInterface. cbv [mbind M_bind get log emit].
    rewrite Hatt, Hcfg. simpl. rewrite decide_False by lia.
    rewrite Hdet. rewrite Hk. destruct (k s) as [[[? ?] ?]|]; reflexivity. }
  split; [reflexivity|split; [exact Hev|split; [|split]]].
  - intros Hr. rewrite (Hch (mret r)).
    + cbv [mret M_ret]. by rewrite app_nil_r.
    + intros s0. by rewrite decide_True.
  - intros Hr. destruct (AttachInterface_some host i s) as (r' & s' & eva & Ea).
    exists r', s', eva. split; [exact Ea|].
    rewrite (Hch (AttachInterface host i)); [by rewrite Ea|].
    intros s0. by rewrite decide_False by lia.
  - intros j s0 s' r' evs Ha.
    destruct (AttachInterface_result host j s0 s' r' evs Ha)
      as [(? & ? & ? & ? & _)|?]; [left|right]; tauto.
Qed.

(** C6: [Attach] on an attached device is a no-op for the active
    interface (no host call, no state change) and a [ChangeInterface] for
    another one.  On a device that is not attached it opens the host
    handle, then claims the interface, and the attached flag ends up true
    exactly when it reports success, which needs both steps to succeed. *)
Theorem Attach_spec (host : Host) (s : LibusbDevice) (i : Z) :
  (m_device_attached s = true -> i = m_active_interface s ->
     Attach host i s = Some (true, s, [])) /\
  (m_device_attached s = true -> i <> m_active_interface s ->
     Attach host i s = (r ← ChangeInterface host i; mret (bool_decide (r = 0))) s) /\
  (m_device_attached s = false -> forall b s' evs, Attach host i s = Some (b, s', evs) ->
     m_device_attached s' = b /\
     (b = true ->
        libusb_open host = 0 /\ m_handle s' = true /\ m_active_interface s' = i /\
        0 <= libusb_claim_interface host i /\
        exists pre mid, evs = pre ++ EvHost HOpen :: mid ++ [EvHost (HClaimInterface i)]) /\
     (libusb_open host <> 0 -> b = false /\ forall j, EvHost (HClaimInterface j) ∉ evs)).
Proof.
  unfold Attach. split; [|split].
  - intros Hatt ->. cbv [mbind M_bind get mret M_ret]. rewrite Hatt.
    rewrite bool_decide_false by congruence. reflexivity.
  - intros Hatt Hne. cbv [get]. cbv [mbind M_bind]. rewrite Hatt.
    rewrite bool_decide_true by exact Hne. simpl.
    destruct (ChangeInterface host i s) as [[[r s2] l2]|]; reflexivity.
  - intros Hatt b s' evs.
    cbv [mbind M_bind get modify log emit mret M_ret]. rewrite Hatt. simpl.
    destruct (decide (libusb_open host ≠ 0)) as [Ho|Ho].
    + intros H. inversion H; subst. split; [reflexivity|split].
      * discriminate.
      * intros _. split; [reflexivity|]. intros j Hin.
        apply list_elem_of_In in Hin. simpl in Hin. intuition discriminate.
    + destruct (AttachInterface host i (set_handle true (set_device_attached false s)))
        as [[[r s3] l]|] eqn:E; [|discriminate].
      destruct (AttachInterface_result _ _ _ _ _ _ E)
        as [(-> & -> & Hh & Hc & pre & ->)|(Hr & ->)].
      * rewrite decide_False by congruence. simpl.
        intros H. inversion H; subst. split; [reflexivity|split].
        -- intros _. repeat split; auto. lia.
           exists [EvLog "Opening device"%string], pre.
           rewrite !app_nil_r. reflexivity.
        -- intros Ho'. lia.
      * rewrite decide_True by lia. simpl.
        intros H. inversion H; subst. split; [reflexivity|split].
        -- discriminate.
        -- intros Ho'. lia.
Qed.

Lemma collect_configurations_valid (cs : list LibusbConfigDescriptor) :
  (collect_configurations cs).1 = omap (fun c => c) cs /\
  Forall (fun e => exists msg, e = EvLog msg) (collect_configurations cs).2.
Proof.
  induction cs as [|[d|] cs [IH1 IH2]]; simpl; [split; auto|..];
    destruct (collect_configurations cs) as [ds evs]; simpl in *; subst.
  - split; auto.
  - split; auto. constructor; eauto.
Qed.

Lemma collect_configurations_logs (cs : list LibusbConfigDescriptor) :
  (collect_configurations cs).2 =
    repeat (EvLog "Ignoring invalid config descriptor"%string)
      (length (filter (fun c => c = None) cs)).
Proof.
  induction cs as [|c cs IH]; [reflexivity|].
  destruct c as [d|].
  - rewrite filter_cons_False by discriminate. simpl.
    destruct (collect_configurations cs) as [ds evs]. exact IH.
  - rewrite filter_cons_True by reflexivity. simpl.
    destruct (collect_configurations cs) as [ds evs]. simpl in *. by rewrite IH.
Qed.

(** C8 (as amended): a configuration that cannot be read is recorded as
    invalid, and the device is built all the same, with one slot per
    configuration; [GetConfigurations] returns the valid ones and logs
    one line per invalid one, and nothing else; [GetInterfaces] and [GetEndpoints] return an empty
    list with a logged diagnostic for an out-of-range or invalid config
    index.  For a valid config, [GetEndpoints] with an out-of-range
    interface number or alternate setting fails its [_assert_]. *)
Theorem descriptor_accessors_degrade (host : Host) (descriptor : libusb_device_descriptor)
    (s : LibusbDevice) (config interface_number alt_setting : Z) :
  (length (m_config_descriptors (make_device host descriptor)) =
     Z.to_nat (bNumConfigurations descriptor) /\
   forall n, (n < Z.to_nat (bNumConfigurations descriptor))%nat ->
     m_config_descriptors (make_device host descriptor) !! n =
       Some (if decide ((libusb_get_config_descriptor host (Z.of_nat n)).1 = LIBUSB_SUCCESS)
             then Some (libusb_get_config_descriptor host (Z.of_nat n)).2 else None)) /\
  (exists evs, GetConfigurations s = Some (omap (fun c => c) (m_config_descriptors s), s, evs) /\
     Forall (fun e => exists msg, e = EvLog msg) evs /\
     evs = repeat (EvLog "Ignoring invalid config descriptor"%string)
             (length (filter (fun c => c = None) (m_config_descriptors s)))) /\
  (0 <= config ->
   Z.of_nat (length (m_config_descriptors s)) <= config \/
   m_config_descriptors s !! Z.to_nat config = Some None ->
     GetInterfaces config s = Some ([], s, [EvLog "Invalid config descriptor"%string]) /\
     GetEndpoints config interface_number alt_setting s =
       Some ([], s, [EvLog "Invalid config descriptor"%string])) /\
  (forall d, 0 <= config -> 0 <= interface_number ->
   m_config_descriptors s !! Z.to_nat config = Some (Some d) ->
   bNumInterfaces d <= interface_number \/
   (exists intf, interface d !! Z.to_nat interface_number = Some intf /\
                 num_altsetting intf <= alt_setting) ->
     GetEndpoints config interface_number alt_setting s = None).
Proof.
  split; [|split; [|split]].
  - unfold make_device. simpl. rewrite length_fmap, length_seq. split; [reflexivity|].
    intros n Hn. rewrite list_lookup_fmap, lookup_seq_lt by exact Hn. simpl.
    unfold make_config_descriptor.
    destruct (libusb_get_config_descriptor host (Z.of_nat n)) as [ret d]; simpl.
    destruct (decide (ret = LIBUSB_SUCCESS)) as [E|E].
    + rewrite decide_False by (intros H; exact (H E)). reflexivity.
    + rewrite decide_True by exact E. reflexivity.
  - unfold GetConfigurations. cbv [mbind M_bind get emit_all mret M_ret].
    destruct (collect_configurations_valid (m_config_descriptors s)) as [H1 H2].
    pose proof (collect_configurations_logs (m_config_descriptors s)) as H3.
    destruct (collect_configurations (m_config_descriptors s)) as [ds evs].
    simpl in *. subst ds. exists evs. rewrite app_nil_r. split; auto.
  - intros Hc Hbad.
    assert (Hnone : checked_config s config = None).
    { unfold checked_config.
      destruct (decide (Z.of_nat (length (m_config_descriptors s)) <= config)); [reflexivity|].
      destruct Hbad as [Hbad|Hbad]; [lia|]. by rewrite Hbad. }
    unfold GetInterfaces, GetEndpoints.
    cbv [mbind M_bind get log emit mret M_ret]. rewrite Hnone. simpl. split; reflexivity.
  - intros d Hc Hi Hd Hbad.
    assert (Hsome : checked_config s config = Some d).
    { unfold checked_config. rewrite Hd.
      destruct (decide (Z.of_nat (length (m_config_descriptors s)) <= config)) as [Hge|];
        [|reflexivity].
      apply lookup_lt_Some in Hd. exfalso.
      rewrite <- (Z2Nat.id config Hc) in Hge. apply Nat2Z.inj_le in Hge. lia. }
    unfold GetEndpoints. cbv [mbind M_bind get fault]. rewrite Hsome.
    destruct Hbad as [Hbad|(intf & Hintf & Halt)].
    + rewrite decide_False by lia. reflexivity.
    + rewrite decide_True.
      2:{ apply lookup_lt_Some in Hintf. unfold bNumInterfaces. lia. }
      rewrite Hintf, decide_False by lia. reflexivity.
Qed.

(** C8: on a valid configuration with one interface, asking
    [GetEndpoints] for interface 5 fails the [_assert_] instead of
    returning an empty list. *)
Lemma GetEndpoints_bad_interface_counterexample :
  m_config_descriptors example_device !! 0%nat = Some (Some example_config) /\
  bNumInterfaces example_config = 1 /\
  GetEndpoints 0 5 0 example_device = None.
Proof. split; [|split]; vm_compute; reflexivity. Qed.

(** An OR of a multiple of [2^k] with a value below [2^k] is a sum. *)
Lemma lor_low_add (a b m k : Z) :
  0 <= k -> m = 2 ^ k -> 0 <= b < m -> Z.lor (a * m) b = a * m + b.
Proof.
  intros Hk -> Hb.
  assert (Hdisj : Z.land (a * 2 ^ k) b = 0).
  { apply Z.bits_inj'. intros n Hn. rewrite Z.land_spec, Z.bits_0.
    destruct (Z.lt_ge_cases n k).
    - rewrite Z.mul_pow2_bits_low by lia. reflexivity.
    - rewrite <- (Z.mod_small b (2 ^ k)) by lia.
      rewrite Z.mod_pow2_bits_high by lia. apply andb_false_r. }
  rewrite <- Z.lxor_lor, <- Z.add_nocarry_lxor by exact Hdisj. reflexivity.
Qed.

Lemma u64_shl_small (x k : Z) :
  0 <= k -> 0 <= x -> x * 2 ^ k < 2 ^ 64 -> u64_shl x k = x * 2 ^ k.
Proof.
  intros Hk Hx Hlt. unfold u64_shl.
  rewrite Z.shiftl_mul_pow2, Z.land_ones by lia.
  apply Z.mod_small. split; [|exact Hlt]. apply Z.mul_nonneg_nonneg; [exact Hx|].
  apply Z.pow_nonneg. lia.
Qed.

Lemma device_id_value (vid pid bus address : Z) :
  0 <= vid < 65536 -> 0 <= pid < 65536 -> 0 <= bus < 256 -> 0 <= address < 256 ->
  device_id vid pid bus address =
    vid * 4294967296 + pid * 65536 + bus * 256 + address.
Proof.
  intros Hv Hp Hb Ha. unfold device_id.
  rewrite (u64_shl_small vid 32), (u64_shl_small pid 16), (u64_shl_small bus 8)
    by (try change (2 ^ 64) with 18446744073709551616;
        try change (2 ^ 32) with 4294967296; try change (2 ^ 16) with 65536;
        try change (2 ^ 8) with 256; lia).
  change (2 ^ 32) with 4294967296. change (2 ^ 16) with 65536. change (2 ^ 8) with 256.
  rewrite (lor_low_add vid (pid * 65536) 4294967296 32) by (reflexivity || lia).
  replace (vid * 4294967296 + pid * 65536) with ((vid * 65536 + pid) * 65536) by ring.
  rewrite (lor_low_add _ (bus * 256) 65536 16) by (reflexivity || lia).
  replace ((vid * 65536 + pid) * 65536 + bus * 256)
    with ((vid * 16777216 + pid * 256 + bus) * 256) by ring.
  rewrite (lor_low_add _ address 256 8) by (reflexivity || lia).
  ring.
Qed.

(** C9: the identifier computed at construction,
    [vid << 32 | pid << 16 | bus << 8 | address], tells apart any two
    devices whose (vendor id, product id, bus number, device address)
    differ, each field within its 16/16/8/8-bit range. *)
Theorem device_id_injective (h1 h2 : Host) (d1 d2 : libusb_device_descriptor)
    (Hv1 : 0 <= idVendor d1 < 2 ^ 16) (Hp1 : 0 <= idProduct d1 < 2 ^ 16)
    (Hb1 : 0 <= libusb_get_bus_number h1 < 2 ^ 8)
    (Ha1 : 0 <= libusb_get_device_address h1 < 2 ^ 8)
    (Hv2 : 0 <= idVendor d2 < 2 ^ 16) (Hp2 : 0 <= idProduct d2 < 2 ^ 16)
    (Hb2 : 0 <= libusb_get_bus_number h2 < 2 ^ 8)
    (Ha2 : 0 <= libusb_get_device_address h2 < 2 ^ 8)
    (Hdiff : (idVendor d1, idProduct d1, libusb_get_bus_number h1, libusb_get_device_address h1)
             <> (idVendor d2, idProduct d2, libusb_get_bus_number h2, libusb_get_device_address h2)) :
  m_id (make_device h1 d1) <> m_id (make_device h2 d2).
Proof.
  change (2 ^ 16) with 65536 in *. change (2 ^ 8) with 256 in *.
  simpl. rewrite !device_id_value by assumption.
  intros Heq. apply Hdiff.
  assert (idVendor d1 = idVendor d2 /\ idProduct d1 = idProduct d2 /\
          libusb_get_bus_number h1 = libusb_get_bus_number h2 /\
          libusb_get_device_address h1 = libusb_get_device_address h2)
    as (-> & -> & -> & ->) by lia.
  reflexivity.
Qed.

(** C10: control transfers live in the tracker of endpoint 0 whatever
    their direction, recipient or [wIndex]: [SubmitTransfer] for a control
    message changes no other tracker, and when it builds a host transfer
    it registers it under endpoint 0 and submits it;
    [CtrlTransferCallback] looks the transfer up in endpoint 0 and changes
    only that tracker. *)
Theorem control_transfers_on_endpoint_zero (host : Host) (cmd : CtrlMessage)
    (s : LibusbDevice) :
  (forall ret s' evs, SubmitTransferCtrl host cmd s = Some (ret, s', evs) ->
     forall ep, ep <> 0 -> m_transfer_endpoints s' !! ep = m_transfer_endpoints s !! ep) /\
  (m_device_attached s = true ->
   ctrl_request_key cmd <> SET_INTERFACE_HDR ->
   ctrl_request_key cmd <> SET_CONFIGURATION_HDR ->
     exists s' evs,
       SubmitTransferCtrl host cmd s =
         Some (libusb_submit_transfer host (m_next_transfer s), s', evs) /\
       m_transfer_endpoints s' =
         <[0 := AddTransfer (Ctrl cmd) (m_next_transfer s)
                  (endpoint_at (m_transfer_endpoints s) 0)]> (m_transfer_endpoints s) /\
       EvHost (HSubmitTransfer (m_next_transfer s)) ∈ evs) /\
  (forall t s' evs, CtrlTransferCallback t s = Some (tt, s', evs) ->
     exists te evs',
       HandleTransfer (endpoint_at (m_transfer_endpoints s) 0) t (ctrl_completion t)
         = Some (te, evs') /\
       m_transfer_endpoints s' = <[0 := te]> (m_transfer_endpoints s)).
Proof.
  split; [|split].
  - intros ret s' evs Hrun ep Hep.
    unfold SubmitTransferCtrl in Hrun. cbv [mbind M_bind get] in Hrun.
    destruct (m_device_attached s); simpl in Hrun.
    + destruct (decide (ctrl_request_key cmd = SET_INTERFACE_HDR)).
      * destruct (set_interface_request host cmd s) as [[[r1 s1] l1]|] eqn:E;
          [|discriminate].
        inversion Hrun; subst.
        destruct (set_interface_request_frame host cmd _ _ _ _ E) as (-> & _).
        reflexivity.
      * destruct (decide (ctrl_request_key cmd = SET_CONFIGURATION_HDR)).
        -- destruct (set_configuration_request host cmd s) as [[[r1 s1] l1]|] eqn:E;
             [|discriminate].
           inversion Hrun; subst.
           destruct (set_configuration_request_frame host cmd _ _ _ _ E) as (-> & _).
           reflexivity.
        -- cbv [alloc_transfer update_endpoint mbind M_bind get modify emit mret M_ret]
             in Hrun.
           inversion Hrun; subst. simpl.
           by rewrite lookup_insert_ne by congruence.
    + inversion Hrun; subst. reflexivity.
  - intros Hatt Hsi Hsc.
    unfold SubmitTransferCtrl.
    cbv [alloc_transfer update_endpoint mbind M_bind get modify emit mret M_ret].
    rewrite Hatt. simpl.
    rewrite decide_False by exact Hsi. rewrite decide_False by exact Hsc.
    eexists _, _. split; [reflexivity|]. split; [reflexivity|].
    apply list_elem_of_In. simpl. tauto.
  - intros t s' evs Hrun.
    unfold CtrlTransferCallback, handle_on_endpoint in Hrun.
    cbv [mbind M_bind get modify emit_all fault] in Hrun.
    destruct (HandleTransfer (endpoint_at (m_transfer_endpoints s) 0) t (ctrl_completion t))
      as [[te evh]|]; [|discriminate].
    inversion Hrun; subst. eexists _, _. split; reflexivity.
Qed.

(** ** Further properties *)

Lemma HandleTransfer_cases (te : TransferEndpoint) (t : libusb_transfer)
    (fn : completion_fn) (te' : TransferEndpoint) (evs : list event) :
  HandleTransfer te t fn = Some (te', evs) ->
  (te !! t_ptr t = None /\ te' = te /\ evs = [EvLog "No such transfer"%string]) \/
  (exists cmd rv pre,
     te !! t_ptr t = Some cmd /\ te' = delete (t_ptr t) te /\
     evs = pre ++ [EvTransferComplete (ios_request cmd) rv] /\
     Forall (fun e => (exists w, e = EvGuest w) \/ (exists msg, e = EvLog msg)) pre /\
     (t_status t = LIBUSB_TRANSFER_COMPLETED ->
        exists ws, fn cmd = Some (rv, ws) /\ pre = map EvGuest ws)).
Proof.
  unfold HandleTransfer.
  destruct (te !! t_ptr t) as [cmd|] eqn:Hf.
  2:{ intros H. inversion H; subst. left. auto. }
  intros H. right.
  destruct (t_status t) eqn:Hs.
  1:{ destruct (fn cmd) as [[rv ws]|] eqn:Hfn; [|discriminate].
      inversion H; subst. exists cmd, rv, (map EvGuest ws).
      split; [reflexivity|]. split; [reflexivity|]. split; [reflexivity|]. split.
      - apply Forall_forall. intros e He. apply list_elem_of_In, in_map_iff in He.
        destruct He as (w & <- & _). left. eauto.
      - intros _. eauto. }
  all: injection H as <- <-.
  5:{ exists cmd, IPC_ENOENT, []. repeat split; [constructor|discriminate]. }
  all: eexists cmd, _, [EvLog "transfer failed"%string].
  all: split; [reflexivity|]; split; [reflexivity|]; split; [reflexivity|].
  all: split; [constructor; [right; eauto|constructor]|discriminate].
Qed.

Lemma quiet_events (pre : list event) :
  Forall (fun e => (exists w, e = EvGuest w) \/ (exists msg, e = EvLog msg)) pre ->
  completions pre = [] /\ host_calls pre = [] /\ replies pre = [].
Proof.
  induction 1 as [|e pre He _ IH]; [auto|].
  destruct He as [[w ->]|[msg ->]]; exact IH.
Qed.

Lemma handle_on_endpoint_inv (ep : Z) (t : libusb_transfer) (fn : completion_fn)
    (s s' : LibusbDevice) (u : unit) (evs : list event) :
  handle_on_endpoint ep t fn s = Some (u, s', evs) ->
  exists te',
    HandleTransfer (endpoint_at (m_transfer_endpoints s) ep) t fn = Some (te', evs) /\
    s' = set_transfer_endpoints (<[ep := te']> (m_transfer_endpoints s)) s.
Proof.
  unfold handle_on_endpoint. cbv [mbind M_bind get modify emit_all fault].
  destruct (HandleTransfer _ t fn) as [[te' evh]|]; [|discriminate].
  intros H. inversion H; subst. eauto.
Qed.

Lemma endpoint_at_dom (eps : gmap Z TransferEndpoint) (ep : Z) (p : transfer_ptr) :
  p ∈ dom (endpoint_at eps ep) -> exists te, eps !! ep = Some te /\ p ∈ dom te.
Proof.
  unfold endpoint_at. destruct (eps !! ep) as [te|]; simpl; [eauto|].
  rewrite dom_empty_L. set_solver.
Qed.

Lemma trackers_ok_fresh (eps : gmap Z TransferEndpoint) (n : transfer_ptr) (ep : Z) :
  trackers_ok eps n -> endpoint_at eps ep !! n = None.
Proof.
  intros [Hlt _]. apply not_elem_of_dom. intros Hin.
  destruct (endpoint_at_dom _ _ _ Hin) as (te & Hte & Hp).
  specialize (Hlt _ _ _ Hte Hp). lia.
Qed.

Lemma trackers_ok_add (eps : gmap Z TransferEndpoint) (n : transfer_ptr) (ep : Z)
    (cmd : TransferCommand) :
  trackers_ok eps n ->
  trackers_ok (<[ep := AddTransfer cmd n (endpoint_at eps ep)]> eps) (n + 1)%N.
Proof.
  intros Hok. pose proof (trackers_ok_fresh _ _ ep Hok) as Hfresh.
  destruct Hok as [Hlt Huniq].
  unfold AddTransfer. rewrite Hfresh.
  assert (Hnew : forall ep' te p, <[ep := <[n := cmd]> (endpoint_at eps ep)]> eps !! ep' = Some te ->
                   p ∈ dom te -> p = n /\ ep' = ep \/
                                 exists te0, eps !! ep' = Some te0 /\ p ∈ dom te0).
  { intros ep' te p Hl Hp. destruct (decide (ep' = ep)) as [->|Hne].
    - rewrite lookup_insert_eq in Hl. inversion Hl; subst.
      rewrite dom_insert_L in Hp. apply elem_of_union in Hp as [Hp|Hp].
      + left. split; [set_solver|reflexivity].
      + right. by apply endpoint_at_dom.
    - rewrite lookup_insert_ne in Hl by congruence. right. eauto. }
  split.
  - intros ep' te p Hl Hp. destruct (Hnew _ _ _ Hl Hp) as [[-> _]|(te0 & H0 & Hp0)]; [lia|].
    specialize (Hlt _ _ _ H0 Hp0). lia.
  - intros ep1 ep2 te1 te2 p H1 H2 Hp1 Hp2.
    destruct (Hnew _ _ _ H1 Hp1) as [[-> ->]|(te01 & H01 & Hp01)];
    destruct (Hnew _ _ _ H2 Hp2) as [[Hn ->]|(te02 & H02 & Hp02)]; auto.
    + specialize (Hlt _ _ _ H02 Hp02). lia.
    + subst p. specialize (Hlt _ _ _ H01 Hp01). lia.
    + eauto.
Qed.

Lemma trackers_ok_shrink (eps : gmap Z TransferEndpoint) (n : transfer_ptr) (ep : Z)
    (te' : TransferEndpoint) :
  trackers_ok eps n -> dom te' ⊆ dom (endpoint_at eps ep) ->
  trackers_ok (<[ep := te']> eps) n.
Proof.
  intros [Hlt Huniq] Hsub.
  assert (Hold : forall ep' te p, <[ep := te']> eps !! ep' = Some te -> p ∈ dom te ->
                   exists te0, eps !! ep' = Some te0 /\ p ∈ dom te0).
  { intros ep' te p Hl Hp. destruct (decide (ep' = ep)) as [->|Hne].
    - rewrite lookup_insert_eq in Hl. inversion Hl; subst.
      apply endpoint_at_dom. set_solver.
    - rewrite lookup_insert_ne in Hl by congruence. eauto. }
  split.
  - intros ep' te p Hl Hp. destruct (Hold _ _ _ Hl Hp) as (te0 & H0 & Hp0). eauto.
  - intros ep1 ep2 te1 te2 p H1 H2 Hp1 Hp2.
    destruct (Hold _ _ _ H1 Hp1) as (? & ? & ?).
    destruct (Hold _ _ _ H2 Hp2) as (? & ? & ?). eauto.
Qed.

Lemma HandleTransfer_dom (te : TransferEndpoint) (t : libusb_transfer) (fn : completion_fn)
    (te' : TransferEndpoint) (evs : list event) :
  HandleTransfer te t fn = Some (te', evs) -> dom te' ⊆ dom te.
Proof.
  intros H. destruct (HandleTransfer_cases _ _ _ _ _ H)
    as [(_ & -> & _)|(cmd & rv & pre & _ & -> & _)]; [set_solver|].
  rewrite dom_delete_L. set_solver.
Qed.

Lemma keeps_frame {A} (m : M A) : tracker_frame m -> keeps_trackers_ok m.
Proof.
  intros Hf s a s' evs Hok Hm. destruct (Hf _ _ _ _ Hm) as (H1 & H2 & _).
  unfold tracker_invariant. rewrite H1, H2. exact Hok.
Qed.

Lemma keeps_handle_on_endpoint (ep : Z) (t : libusb_transfer) (fn : completion_fn) :
  keeps_trackers_ok (handle_on_endpoint ep t fn).
Proof.
  intros s u s' evs Hok H.
  destruct (handle_on_endpoint_inv _ _ _ _ _ _ _ H) as (te' & Hh & ->).
  apply trackers_ok_shrink; [exact Hok|]. eapply HandleTransfer_dom; eauto.
Qed.

Lemma Attach_frame (host : Host) (i : Z) : tracker_frame (Attach host i).
Proof. unfold Attach. frame_solve; auto using ChangeInterface_frame, AttachInterface_frame. Qed.

Lemma GetNumberOfAltSettings_frame (i : Z) : tracker_frame (GetNumberOfAltSettings i).
Proof. unfold GetNumberOfAltSettings. frame_solve. Qed.

Lemma GetInterfaces_frame (config : Z) : tracker_frame (GetInterfaces config).
Proof. unfold GetInterfaces. frame_solve. Qed.

Lemma GetEndpoints_frame (config i a : Z) : tracker_frame (GetEndpoints config i a).
Proof. unfold GetEndpoints. frame_solve. Qed.

Lemma LibusbDevice_destructor_frame (host : Host) :
  tracker_frame (LibusbDevice_destructor host).
Proof. unfold LibusbDevice_destructor. frame_solve; auto using DetachInterface_frame. Qed.

(** The state after [libusb_alloc_transfer] and
    [m_transfer_endpoints[ep].AddTransfer(cmd, transfer)]. *)
Lemma alloc_update_eq (ep : Z) (cmd : TransferCommand) (s : LibusbDevice) :
  (transfer ← alloc_transfer; update_endpoint ep (AddTransfer cmd transfer);;
   emit (EvHost (HSubmitTransfer transfer));; mret transfer) s =
  Some (m_next_transfer s,
        set_transfer_endpoints
          (<[ep := AddTransfer cmd (m_next_transfer s) (endpoint_at (m_transfer_endpoints s) ep)]>
             (m_transfer_endpoints s))
          (set_next_transfer (m_next_transfer s + 1)%N s),
        [EvHost (HSubmitTransfer (m_next_transfer s))]).
Proof. reflexivity. Qed.

Lemma SubmitTransferBulk_eq (host : Host) (cmd : BulkMessage) (s : LibusbDevice) :
  SubmitTransferBulk host cmd s =
    if m_device_attached s then
      Some (libusb_submit_transfer host (m_next_transfer s),
            set_transfer_endpoints
              (<[bulk_endpoint cmd := AddTransfer (Bulk cmd) (m_next_transfer s)
                   (endpoint_at (m_transfer_endpoints s) (bulk_endpoint cmd))]>
                 (m_transfer_endpoints s))
              (set_next_transfer (m_next_transfer s + 1)%N s),
            [EvHost (HSubmitTransfer (m_next_transfer s))])
    else Some (LIBUSB_ERROR_NOT_FOUND, s, []).
Proof. unfold SubmitTransferBulk. cbv [mbind M_bind get]. destruct (m_device_attached s); reflexivity. Qed.

Lemma SubmitTransferIntr_eq (host : Host) (cmd : IntrMessage) (s : LibusbDevice) :
  SubmitTransferIntr host cmd s =
    if m_device_attached s then
      Some (libusb_submit_transfer host (m_next_transfer s),
            set_transfer_endpoints
              (<[intr_endpoint cmd := AddTransfer (Intr cmd) (m_next_transfer s)
                   (endpoint_at (m_transfer_endpoints s) (intr_endpoint cmd))]>
                 (m_transfer_endpoints s))
              (set_next_transfer (m_next_transfer s + 1)%N s),
            [EvHost (HSubmitTransfer (m_next_transfer s))])
    else Some (LIBUSB_ERROR_NOT_FOUND, s, []).
Proof. unfold SubmitTransferIntr. cbv [mbind M_bind get]. destruct (m_device_attached s); reflexivity. Qed.

Lemma SubmitTransferIso_eq (host : Host) (cmd : IsoMessage) (s : LibusbDevice) :
  SubmitTransferIso host cmd s =
    if m_device_attached s then
      Some (libusb_submit_transfer host (m_next_transfer s),
            set_transfer_endpoints
              (<[iso_endpoint cmd := AddTransfer (Iso cmd) (m_next_transfer s)
                   (endpoint_at (m_transfer_endpoints s) (iso_endpoint cmd))]>
                 (m_transfer_endpoints s))
              (set_next_transfer (m_next_transfer s + 1)%N s),
            [EvHost (HSubmitTransfer (m_next_transfer s))])
    else Some (LIBUSB_ERROR_NOT_FOUND, s, []).
Proof. unfold SubmitTransferIso. cbv [mbind M_bind get]. destruct (m_device_attached s); reflexivity. Qed.

(** A plain control request (not one of the two intercepted ones). *)
Lemma SubmitTransferCtrl_plain_eq (host : Host) (cmd : CtrlMessage) (s : LibusbDevice) :
  ctrl_request_key cmd <> SET_INTERFACE_HDR -> ctrl_request_key cmd <> SET_CONFIGURATION_HDR ->
  SubmitTransferCtrl host cmd s =
    if m_device_attached s then
      Some (libusb_submit_transfer host (m_next_transfer s),
            set_transfer_endpoints
              (<[0 := AddTransfer (Ctrl cmd) (m_next_transfer s)
                   (endpoint_at (m_transfer_endpoints s) 0)]> (m_transfer_endpoints s))
              (set_next_transfer (m_next_transfer s + 1)%N s),
            [EvHost (HSubmitTransfer (m_next_transfer s))])
    else Some (LIBUSB_ERROR_NOT_FOUND, s, []).
Proof.
  intros H1 H2. unfold SubmitTransferCtrl. cbv [mbind M_bind get].
  destruct (m_device_attached s); [|reflexivity]. simpl.
  rewrite decide_False by exact H1. rewrite decide_False by exact H2. reflexivity.
Qed.

Lemma keeps_submit_state (ep : Z) (cmd : TransferCommand) (s : LibusbDevice) :
  tracker_invariant s ->
  tracker_invariant
    (set_transfer_endpoints
       (<[ep := AddTransfer cmd (m_next_transfer s) (endpoint_at (m_transfer_endpoints s) ep)]>
          (m_transfer_endpoints s))
       (set_next_transfer (m_next_transfer s + 1)%N s)).
Proof. intros Hok. apply trackers_ok_add. exact Hok. Qed.

Lemma keeps_same_state {A} (m : M A) :
  (forall s a s' evs, m s = Some (a, s', evs) -> s' = s) -> keeps_trackers_ok m.
Proof. intros Hm s a s' evs Hok H. rewrite (Hm _ _ _ _ H). exact Hok. Qed.

Lemma CancelTransfer_same_state (ep : Z) (s s' : LibusbDevice) (r : Z) (evs : list event) :
  CancelTransfer ep s = Some (r, s', evs) -> s' = s.
Proof.
  unfold CancelTransfer. cbv [mbind M_bind get log emit emit_all mret M_ret].
  destruct (m_transfer_endpoints s !! ep); intros H; inversion H; reflexivity.
Qed.

Lemma GetConfigurations_same_state (s s' : LibusbDevice) (ds : list libusb_config_descriptor)
    (evs : list event) :
  GetConfigurations s = Some (ds, s', evs) -> s' = s.
Proof.
  unfold GetConfigurations. cbv [mbind M_bind get emit_all mret M_ret].
  destruct (collect_configurations (m_config_descriptors s)). intros H; inversion H; reflexivity.
Qed.

(** X1: the trackers stay consistent with the allocator. *)
Theorem tracker_invariant_kept (host : Host) :
  (forall descriptor, tracker_invariant (make_device host descriptor)) /\
  (forall i, keeps_trackers_ok (Attach host i)) /\
  (forall i, keeps_trackers_ok (ChangeInterface host i)) /\
  (forall a, keeps_trackers_ok (SetAltSetting host a)) /\
  (forall ep, keeps_trackers_ok (CancelTransfer ep)) /\
  (forall cmd, keeps_trackers_ok (SubmitTransferCtrl host cmd)) /\
  (forall cmd, keeps_trackers_ok (SubmitTransferBulk host cmd)) /\
  (forall cmd, keeps_trackers_ok (SubmitTransferIntr host cmd)) /\
  (forall cmd, keeps_trackers_ok (SubmitTransferIso host cmd)) /\
  (forall t, keeps_trackers_ok (CtrlTransferCallback t)) /\
  (forall t, keeps_trackers_ok (TransferCallback t)) /\
  keeps_trackers_ok GetConfigurations /\
  (forall config, keeps_trackers_ok (GetInterfaces config)) /\
  (forall config i a, keeps_trackers_ok (GetEndpoints config i a)) /\
  (forall i, keeps_trackers_ok (GetNumberOfAltSettings i)) /\
  keeps_trackers_ok (LibusbDevice_destructor host).
Proof.
  split; [|split; [|split; [|split; [|split; [|split; [|split; [|split;
    [|split; [|split; [|split; [|split; [|split; [|split; [|split]]]]]]]]]]]]]].
  - intros d. split; simpl; intros ep; rewrite lookup_empty; discriminate.
  - intros i. apply keeps_frame, Attach_frame.
  - intros i. apply keeps_frame, ChangeInterface_frame.
  - intros a. apply keeps_frame, SetAltSetting_frame.
  - intros ep. apply keeps_same_state. intros s r s' evs. apply CancelTransfer_same_state.
  - intros cmd s r s' evs Hok H.
    destruct (decide (ctrl_request_key cmd = SET_INTERFACE_HDR)) as [Hsi|Hsi].
    + unfold SubmitTransferCtrl in H. cbv [mbind M_bind get] in H.
      destruct (m_device_attached s); simpl in H; [|inversion H; subst; exact Hok].
      rewrite decide_True in H by exact Hsi.
      destruct (set_interface_request host cmd s) as [[[r1 s1] l1]|] eqn:E; [|discriminate].
      inversion H; subst. exact (keeps_frame _ (set_interface_request_frame host cmd) _ _ _ _ Hok E).
    + destruct (decide (ctrl_request_key cmd = SET_CONFIGURATION_HDR)) as [Hsc|Hsc].
      * unfold SubmitTransferCtrl in H. cbv [mbind M_bind get] in H.
        destruct (m_device_attached s); simpl in H; [|inversion H; subst; exact Hok].
        rewrite decide_False in H by exact Hsi. rewrite decide_True in H by exact Hsc.
        destruct (set_configuration_request host cmd s) as [[[r1 s1] l1]|] eqn:E;
          [|discriminate].
        inversion H; subst.
        exact (keeps_frame _ (set_configuration_request_frame host cmd) _ _ _ _ Hok E).
      * rewrite SubmitTransferCtrl_plain_eq in H by assumption.
        destruct (m_device_attached s); inversion H; subst; [|exact Hok].
        apply keeps_submit_state. exact Hok.
  - intros cmd s r s' evs Hok H. rewrite SubmitTransferBulk_eq in H.
    destruct (m_device_attached s); inversion H; subst; [|exact Hok].
    apply keeps_submit_state. exact Hok.
  - intros cmd s r s' evs Hok H. rewrite SubmitTransferIntr_eq in H.
    destruct (m_device_attached s); inversion H; subst; [|exact Hok].
    apply keeps_submit_state. exact Hok.
  - intros cmd s r s' evs Hok H. rewrite SubmitTransferIso_eq in H.
    destruct (m_device_attached s); inversion H; subst; [|exact Hok].
    apply keeps_submit_state. exact Hok.
  - intros t. apply keeps_handle_on_endpoint.
  - intros t. apply keeps_handle_on_endpoint.
  - apply keeps_same_state. intros s ds s' evs. apply GetConfigurations_same_state.
  - intros config. apply keeps_frame, GetInterfaces_frame.
  - intros config i a. apply keeps_frame, GetEndpoints_frame.
  - intros i. apply keeps_frame, GetNumberOfAltSettings_frame.
  - apply keeps_frame, LibusbDevice_destructor_frame.
Qed.

Lemma completions_single (pre : list event) (r v : Z) :
  completions pre = [] -> completions (pre ++ [EvTransferComplete r v]) = [(r, v)].
Proof. intros H. rewrite completions_app, H. reflexivity. Qed.

(** X2: a transfer added to an endpoint on a free slot comes back out of
    [HandleTransfer]: the endpoint is restored and the command's
    [OnTransferComplete] is called once. *)
Theorem AddTransfer_HandleTransfer_roundtrip (te : TransferEndpoint) (cmd : TransferCommand)
    (t : libusb_transfer) (fn : completion_fn)
    (Hfree : te !! t_ptr t = None) :
  AddTransfer cmd (t_ptr t) te !! t_ptr t = Some cmd /\
  (forall p, p <> t_ptr t -> AddTransfer cmd (t_ptr t) te !! p = te !! p) /\
  forall te' evs, HandleTransfer (AddTransfer cmd (t_ptr t) te) t fn = Some (te', evs) ->
    te' = te /\ exists rv, completions evs = [(ios_request cmd, rv)].
Proof.
  unfold AddTransfer. rewrite Hfree.
  split; [apply lookup_insert_eq|split].
  - intros p Hp. apply lookup_insert_ne. congruence.
  - intros te' evs H.
    destruct (HandleTransfer_cases _ _ _ _ _ H)
      as [(Hn & _)|(c & rv & pre & Hc & -> & -> & Hq & _)].
    + rewrite lookup_insert_eq in Hn. discriminate.
    + rewrite lookup_insert_eq in Hc. inversion Hc; subst.
      split; [apply delete_insert_id; exact Hfree|].
      exists rv. apply completions_single. apply (quiet_events _ Hq).
Qed.

(** X3: each transfer callback changes only one tracker:
    [TransferCallback] that of the transfer's endpoint,
    [CtrlTransferCallback] that of endpoint 0.  Afterwards that tracker no
    longer holds the transfer and its other entries are unchanged.  A
    callback makes no libusb call, enqueues no reply itself, and
    reports at most one completion ([OnTransferComplete]). *)
Theorem transfer_callbacks_local (t : libusb_transfer) (s : LibusbDevice) :
  (forall s' evs, TransferCallback t s = Some (tt, s', evs) ->
   exists te',
     s' = set_transfer_endpoints (<[t_endpoint t := te']> (m_transfer_endpoints s)) s /\
     (forall p, p <> t_ptr t ->
        te' !! p = endpoint_at (m_transfer_endpoints s) (t_endpoint t) !! p) /\
     te' !! t_ptr t = None /\
     host_calls evs = [] /\ replies evs = [] /\ (length (completions evs) <= 1)%nat) /\
  (forall s' evs, CtrlTransferCallback t s = Some (tt, s', evs) ->
   exists te',
     s' = set_transfer_endpoints (<[0 := te']> (m_transfer_endpoints s)) s /\
     (forall p, p <> t_ptr t -> te' !! p = endpoint_at (m_transfer_endpoints s) 0 !! p) /\
     te' !! t_ptr t = None /\
     host_calls evs = [] /\ replies evs = [] /\ (length (completions evs) <= 1)%nat).
Proof.
  assert (Hgen : forall ep fn s' evs, handle_on_endpoint ep t fn s = Some (tt, s', evs) ->
   exists te',
     s' = set_transfer_endpoints (<[ep := te']> (m_transfer_endpoints s)) s /\
     (forall p, p <> t_ptr t -> te' !! p = endpoint_at (m_transfer_endpoints s) ep !! p) /\
     te' !! t_ptr t = None /\
     host_calls evs = [] /\ replies evs = [] /\ (length (completions evs) <= 1)%nat).
  { intros ep fn s' evs H.
    destruct (handle_on_endpoint_inv _ _ _ _ _ _ _ H) as (te' & Hh & ->).
    exists te'. split; [reflexivity|].
    destruct (HandleTransfer_cases _ _ _ _ _ Hh)
      as [(Hn & -> & ->)|(c & rv & pre & Hc & -> & -> & Hq & _)].
    - split; [reflexivity|]. split; [exact Hn|]. repeat split; simpl; lia.
    - split; [intros p Hp; apply lookup_delete_ne; congruence|].
      split; [apply lookup_delete_eq|].
      destruct (quiet_events _ Hq) as (H1 & H2 & H3).
      unfold host_calls, replies. rewrite !omap_app.
      fold (host_calls pre) (replies pre). rewrite H2, H3.
      split; [reflexivity|split; [reflexivity|]].
      rewrite completions_single by exact H1. simpl. lia. }
  split; intros s' evs H; eapply Hgen; exact H.
Qed.

(** X4: a callback for a transfer its endpoint does not track (already
    completed, or never submitted there) only logs; [operator[]] still
    creates the endpoint's tracker if it was missing, after which
    [CancelTransfer] on that endpoint answers [IPC_SUCCESS]. *)
Theorem TransferCallback_untracked (t : libusb_transfer) (s : LibusbDevice)
    (Hnone : endpoint_at (m_transfer_endpoints s) (t_endpoint t) !! t_ptr t = None) :
  let s' := set_transfer_endpoints
              (<[t_endpoint t := endpoint_at (m_transfer_endpoints s) (t_endpoint t)]>
                 (m_transfer_endpoints s)) s in
  TransferCallback t s = Some (tt, s', [EvLog "No such transfer"%string]) /\
  m_transfer_endpoints s' !! t_endpoint t =
    Some (endpoint_at (m_transfer_endpoints s) (t_endpoint t)) /\
  CancelTransfer (t_endpoint t) s' =
    Some (IPC_SUCCESS, s',
          EvLog "Cancelling transfers"%string
            :: CancelTransfers (endpoint_at (m_transfer_endpoints s) (t_endpoint t))).
Proof.
  cbv zeta. split; [|split].
  - unfold TransferCallback, handle_on_endpoint. cbv [mbind M_bind get modify emit_all].
    unfold HandleTransfer at 1. rewrite Hnone. reflexivity.
  - simpl. apply lookup_insert_eq.
  - unfold CancelTransfer. cbv [mbind M_bind get log emit emit_all mret M_ret].
    simpl. rewrite lookup_insert_eq. simpl. by rewrite app_nil_r.
Qed.

(** X5: the values reported on a completed transfer: a control transfer
    reports [transfer->length], setup packet included, after copying back
    [actual_length] bytes; a bulk or interrupt transfer reports the
    [actual_length] it copies back.  The entry is erased in both cases. *)
Theorem completed_transfer_values (t : libusb_transfer) (s : LibusbDevice)
    (Hstatus : t_status t = LIBUSB_TRANSFER_COMPLETED) :
  (forall cmd, endpoint_at (m_transfer_endpoints s) 0 !! t_ptr t = Some cmd ->
     CtrlTransferCallback t s =
       Some (tt, set_transfer_endpoints
                   (<[0 := delete (t_ptr t) (endpoint_at (m_transfer_endpoints s) 0)]>
                      (m_transfer_endpoints s)) s,
             [EvGuest (FillBuffer (ios_request cmd) (t_actual_length t));
              EvTransferComplete (ios_request cmd) (t_length t)])) /\
  (forall cmd, t_type t <> LIBUSB_TRANSFER_TYPE_ISOCHRONOUS ->
     endpoint_at (m_transfer_endpoints s) (t_endpoint t) !! t_ptr t = Some cmd ->
     TransferCallback t s =
       Some (tt, set_transfer_endpoints
                   (<[t_endpoint t := delete (t_ptr t)
                                        (endpoint_at (m_transfer_endpoints s) (t_endpoint t))]>
                      (m_transfer_endpoints s)) s,
             [EvGuest (FillBuffer (ios_request cmd) (t_actual_length t));
              EvTransferComplete (ios_request cmd) (t_actual_length t)])).
Proof.
  split.
  - intros cmd Hf. unfold CtrlTransferCallback, handle_on_endpoint.
    cbv [mbind M_bind get modify emit_all].
    unfold HandleTransfer at 1. rewrite Hf, Hstatus. reflexivity.
  - intros cmd Hty Hf. unfold TransferCallback, handle_on_endpoint.
    cbv [mbind M_bind get modify emit_all].
    unfold HandleTransfer at 1. rewrite Hf, Hstatus.
    unfold transfer_completion.
    destruct (t_type t); [| exfalso; exact (Hty eq_refl) | |]; reflexivity.
Qed.

Lemma cancelled_map (l : list (transfer_ptr * TransferCommand)) :
  cancelled (map (fun p => EvHost (HCancelTransfer p.1)) l) = l.*1.
Proof. induction l as [|[p c] l IH]; simpl; [reflexivity|]. by rewrite IH. Qed.

Lemma host_calls_map (l : list (transfer_ptr * TransferCommand)) :
  host_calls (map (fun p => EvHost (HCancelTransfer p.1)) l) = HCancelTransfer <$> l.*1.
Proof. induction l as [|[p c] l IH]; simpl; [reflexivity|]. by rewrite IH. Qed.

(** X6: [CancelTransfers] calls [libusb_cancel_transfer] once for each
    tracked transfer and for nothing else, and makes no other libusb call. *)
Theorem CancelTransfers_each_once (te : TransferEndpoint) :
  NoDup (cancelled (CancelTransfers te)) /\
  (forall p, p ∈ cancelled (CancelTransfers te) <-> p ∈ dom te) /\
  length (cancelled (CancelTransfers te)) = size te /\
  host_calls (CancelTransfers te) = HCancelTransfer <$> cancelled (CancelTransfers te).
Proof.
  assert (Hc : cancelled (CancelTransfers te) = (map_to_list te).*1).
  { unfold CancelTransfers. destruct (decide (te = ∅)) as [->|]; simpl.
    - by rewrite map_to_list_empty.
    - apply cancelled_map. }
  assert (Hh : host_calls (CancelTransfers te) = HCancelTransfer <$> (map_to_list te).*1).
  { unfold CancelTransfers. destruct (decide (te = ∅)) as [->|]; simpl.
    - by rewrite map_to_list_empty.
    - apply host_calls_map. }
  rewrite Hc, Hh. split; [apply NoDup_fst_map_to_list|split; [|split; [|reflexivity]]].
  - intros p. rewrite list_elem_of_fmap, elem_of_dom. split.
    + intros ([q c] & -> & Hin). apply elem_of_map_to_list in Hin. simpl. eauto.
    + intros [c Hc']. exists (p, c). split; [reflexivity|]. by apply elem_of_map_to_list.
  - rewrite length_fmap. apply length_map_to_list.
Qed.

(** X7: every submission path, [SetAltSetting] and [ChangeInterface]
    answer [LIBUSB_ERROR_NOT_FOUND] on a device that is not attached,
    before allocating anything, calling libusb or logging. *)
Theorem unattached_device_refuses (host : Host) (s : LibusbDevice)
    (Hdet : m_device_attached s = false) :
  (forall cmd, SubmitTransferCtrl host cmd s = Some (LIBUSB_ERROR_NOT_FOUND, s, [])) /\
  (forall cmd, SubmitTransferBulk host cmd s = Some (LIBUSB_ERROR_NOT_FOUND, s, [])) /\
  (forall cmd, SubmitTransferIntr host cmd s = Some (LIBUSB_ERROR_NOT_FOUND, s, [])) /\
  (forall cmd, SubmitTransferIso host cmd s = Some (LIBUSB_ERROR_NOT_FOUND, s, [])) /\
  (forall a, SetAltSetting host a s = Some (LIBUSB_ERROR_NOT_FOUND, s, [])) /\
  (forall i, ChangeInterface host i s = Some (LIBUSB_ERROR_NOT_FOUND, s, [])).
Proof.
  split; [|split; [|split; [|split; [|split]]]]; intros x.
  - unfold SubmitTransferCtrl. cbv [mbind M_bind get]. rewrite Hdet. reflexivity.
  - rewrite SubmitTransferBulk_eq, Hdet. reflexivity.
  - rewrite SubmitTransferIntr_eq, Hdet. reflexivity.
  - rewrite SubmitTransferIso_eq, Hdet. reflexivity.
  - unfold SetAltSetting. cbv [mbind M_bind get]. rewrite Hdet. reflexivity.
  - unfold ChangeInterface. cbv [mbind M_bind get]. rewrite Hdet. reflexivity.
Qed.

(** X8: on an attached device a bulk, interrupt or isochronous submission
    allocates the next transfer, adds the command to the tracker of its
    endpoint (a new entry: the allocator never hands out a tracked
    transfer), leaves every other tracker alone, submits the transfer and
    returns libusb's result.  The entry stays whatever libusb returns. *)
Theorem data_transfer_submission (host : Host) (s : LibusbDevice)
    (Hinv : tracker_invariant s) (Hatt : m_device_attached s = true) :
  let n := m_next_transfer s in
  let eps := m_transfer_endpoints s in
  (forall cmd, exists s',
     SubmitTransferBulk host cmd s =
       Some (libusb_submit_transfer host n, s', [EvHost (HSubmitTransfer n)]) /\
     m_next_transfer s' = (n + 1)%N /\
     m_transfer_endpoints s' !! bulk_endpoint cmd =
       Some (<[n := Bulk cmd]> (endpoint_at eps (bulk_endpoint cmd))) /\
     endpoint_at eps (bulk_endpoint cmd) !! n = None /\
     (forall ep, ep <> bulk_endpoint cmd -> m_transfer_endpoints s' !! ep = eps !! ep)) /\
  (forall cmd, exists s',
     SubmitTransferIntr host cmd s =
       Some (libusb_submit_transfer host n, s', [EvHost (HSubmitTransfer n)]) /\
     m_next_transfer s' = (n + 1)%N /\
     m_transfer_endpoints s' !! intr_endpoint cmd =
       Some (<[n := Intr cmd]> (endpoint_at eps (intr_endpoint cmd))) /\
     endpoint_at eps (intr_endpoint cmd) !! n = None /\
     (forall ep, ep <> intr_endpoint cmd -> m_transfer_endpoints s' !! ep = eps !! ep)) /\
  (forall cmd, exists s',
     SubmitTransferIso host cmd s =
       Some (libusb_submit_transfer host n, s', [EvHost (HSubmitTransfer n)]) /\
     m_next_transfer s' = (n + 1)%N /\
     m_transfer_endpoints s' !! iso_endpoint cmd =
       Some (<[n := Iso cmd]> (endpoint_at eps (iso_endpoint cmd))) /\
     endpoint_at eps (iso_endpoint cmd) !! n = None /\
     (forall ep, ep <> iso_endpoint cmd -> m_transfer_endpoints s' !! ep = eps !! ep)).
Proof.
  cbv zeta.
  split; [|split]; intros cmd;
    [rewrite SubmitTransferBulk_eq, Hatt|rewrite SubmitTransferIntr_eq, Hatt|
     rewrite SubmitTransferIso_eq, Hatt];
    eexists; (split; [reflexivity|]); simpl;
    (split; [reflexivity|]);
    unfold AddTransfer;
    (rewrite (trackers_ok_fresh _ _ _ Hinv); split; [apply lookup_insert_eq|split; [reflexivity|]]);
    intros ep Hep; apply lookup_insert_ne; congruence.
Qed.

Lemma endpoint_at_insert (eps : gmap Z TransferEndpoint) (ep : Z) (te : TransferEndpoint) :
  endpoint_at (<[ep := te]> eps) ep = te.
Proof. unfold endpoint_at. by rewrite lookup_insert_eq. Qed.

(** X9: a bulk submission followed by the callback for that transfer
    (whatever its status, as long as it is not reported as isochronous)
    leaves the trackers as they were, up to the endpoint's tracker being
    created, and completes the command exactly once, with
    [actual_length] when the transfer completed. *)
Theorem bulk_submit_then_callback (host : Host) (s : LibusbDevice) (cmd : BulkMessage)
    (t : libusb_transfer)
    (Hinv : tracker_invariant s) (Hatt : m_device_attached s = true)
    (Hptr : t_ptr t = m_next_transfer s) (Hep : t_endpoint t = bulk_endpoint cmd)
    (Hty : t_type t <> LIBUSB_TRANSFER_TYPE_ISOCHRONOUS) :
  exists s' evs,
    (_ ← SubmitTransferBulk host cmd; TransferCallback t) s = Some (tt, s', evs) /\
    m_transfer_endpoints s' =
      <[bulk_endpoint cmd := endpoint_at (m_transfer_endpoints s) (bulk_endpoint cmd)]>
        (m_transfer_endpoints s) /\
    m_next_transfer s' = (m_next_transfer s + 1)%N /\
    exists rv, completions evs = [(bulk_ios_request cmd, rv)] /\
      (t_status t = LIBUSB_TRANSFER_COMPLETED -> rv = t_actual_length t).
Proof.
  pose proof (trackers_ok_fresh _ _ (bulk_endpoint cmd) Hinv) as Hfresh.
  cbv [mbind M_bind]. rewrite SubmitTransferBulk_eq, Hatt.
  unfold TransferCallback, handle_on_endpoint. cbv [mbind M_bind get modify emit_all].
  simpl. rewrite Hep, endpoint_at_insert.
  unfold AddTransfer. rewrite Hfresh.
  unfold HandleTransfer at 1. rewrite Hptr, lookup_insert_eq.
  destruct (t_status t) eqn:Hs;
    [unfold transfer_completion; destruct (t_type t); [|exfalso; exact (Hty eq_refl)| |]|..];
    (eexists _, _; split; [reflexivity|]; simpl;
     rewrite insert_insert_eq, delete_insert_id by exact Hfresh;
     split; [reflexivity|split; [reflexivity|]];
     eexists; split; [reflexivity|]; intros; first [reflexivity|discriminate]).
Qed.

(** ** IPC replies *)

Lemma replies_app (l1 l2 : list event) : replies (l1 ++ l2) = replies l1 ++ replies l2.
Proof. unfold replies. apply omap_app. Qed.

Lemma rf_ret {A} (a : A) : replies_free (mret a).
Proof. intros s a' s' evs H. cbv in H. inversion H; reflexivity. Qed.

Lemma rf_fault {A} : replies_free (@fault A).
Proof. intros s a s' evs H. discriminate. Qed.

Lemma rf_get : replies_free get.
Proof. intros s a s' evs H. cbv in H. inversion H; reflexivity. Qed.

Lemma rf_modify (f : LibusbDevice -> LibusbDevice) : replies_free (modify f).
Proof. intros s a s' evs H. cbv in H. inversion H; reflexivity. Qed.

Lemma rf_emit (e : event) : (forall r v, e <> EvReply r v) -> replies_free (emit e).
Proof.
  intros He s a s' evs H. cbv [emit] in H. inversion H; subst.
  destruct e; try reflexivity. exfalso. eapply He; reflexivity.
Qed.

Lemma rf_log (msg : string) : replies_free (log msg).
Proof. apply rf_emit. discriminate. Qed.

Lemma rf_bind {A B} (m : M A) (k : A -> M B) :
  replies_free m -> (forall a, replies_free (k a)) -> replies_free (m ≫= k).
Proof.
  intros Hm Hk s b s2 evs H. cbv [mbind M_bind] in H.
  destruct (m s) as [[[a s1] l1]|] eqn:E1; [|discriminate].
  destruct (k a s1) as [[[b' s2'] l2]|] eqn:E2; [|discriminate].
  inversion H; subst. rewrite replies_app, (Hm _ _ _ _ E1), (Hk _ _ _ _ _ E2). reflexivity.
Qed.

#[export] Hint Resolve rf_ret rf_fault rf_get rf_log rf_modify : frame.

Ltac rf_solve :=
  repeat (match goal with
          | |- replies_free (_ ≫= _) => apply rf_bind; [|intro]
          | |- replies_free (if ?c then _ else _) => destruct c
          | |- replies_free (match ?x with _ => _ end) => destruct x
          | |- replies_free (emit _) => apply rf_emit; intros ? ? ?; discriminate
          end; auto with frame).

Lemma AttachInterface_rf (host : Host) (i : Z) : replies_free (AttachInterface host i).
Proof. unfold AttachInterface. rf_solve. Qed.

Lemma DetachInterface_rf (host : Host) : replies_free (DetachInterface host).
Proof. unfold DetachInterface. rf_solve. Qed.

Lemma ChangeInterface_rf (host : Host) (i : Z) : replies_free (ChangeInterface host i).
Proof. unfold ChangeInterface. rf_solve; auto using DetachInterface_rf, AttachInterface_rf. Qed.

Lemma SetAltSetting_rf (host : Host) (a : Z) : replies_free (SetAltSetting host a).
Proof. unfold SetAltSetting. rf_solve. Qed.

Lemma rx_bind {A} (req len : Z) (m : M A) (k : A -> M Z) :
  replies_free m -> (forall a, replies_exact req len (k a)) -> replies_exact req len (m ≫= k).
Proof.
  intros Hm Hk s r s2 evs H. cbv [mbind M_bind] in H.
  destruct (m s) as [[[a s1] l1]|] eqn:E1; [|discriminate].
  destruct (k a s1) as [[[r' s2'] l2]|] eqn:E2; [|discriminate].
  inversion H; subst. rewrite replies_app, (Hm _ _ _ _ E1), (Hk _ _ _ _ _ E2). reflexivity.
Qed.

Lemma rx_ret_nonzero (req len r : Z) : r <> 0 -> replies_exact req len (mret r).
Proof. intros Hr s r' s' evs H. cbv in H. inversion H; subst. by rewrite decide_False. Qed.

Lemma rx_after (req len ret : Z) :
  replies_exact req len
    ((if decide (ret = 0) then emit (EvReply req len) else mret ());; mret ret).
Proof.
  intros s r s' evs H.
  destruct (decide (ret = 0)); cbv in H; inversion H; subst.
  - by rewrite decide_True.
  - by rewrite decide_False.
Qed.

Lemma set_interface_request_rx (host : Host) (cmd : CtrlMessage) :
  replies_exact (ctrl_ios_request cmd) (ctrl_length cmd) (set_interface_request host cmd).
Proof.
  unfold set_interface_request. cbv zeta.
  apply rx_bind; [apply rf_get|]. intros s.
  destruct (decide _).
  - apply rx_bind; [apply ChangeInterface_rf|]. intros ret. destruct (decide (ret < 0)).
    + apply rx_bind; [apply rf_log|]. intros _. apply rx_ret_nonzero. lia.
    + apply rx_bind; [apply SetAltSetting_rf|]. intros r. apply rx_after.
  - apply rx_bind; [apply SetAltSetting_rf|]. intros r. apply rx_after.
Qed.

Lemma set_configuration_request_rx (host : Host) (cmd : CtrlMessage) :
  replies_exact (ctrl_ios_request cmd) (ctrl_length cmd) (set_configuration_request host cmd).
Proof.
  unfold set_configuration_request. cbv zeta.
  apply rx_bind; [apply rf_emit; discriminate|]. intros _. apply rx_after.
Qed.

(** X10: an intercepted SET_INTERFACE or SET_CONFIGURATION request enqueues
    exactly one IPC reply, carrying the command's length, when it returns
    0, and none otherwise: a failure reaches the guest only as the return
    value. *)
Theorem intercepted_request_replies (host : Host) (s : LibusbDevice) (cmd : CtrlMessage)
    (Hkey : ctrl_request_key cmd = SET_INTERFACE_HDR \/
            ctrl_request_key cmd = SET_CONFIGURATION_HDR)
    (r : Z) (s' : LibusbDevice) (evs : list event)
    (Hrun : SubmitTransferCtrl host cmd s = Some (r, s', evs)) :
  replies evs = if decide (r = 0) then [(ctrl_ios_request cmd, ctrl_length cmd)] else [].
Proof.
  unfold SubmitTransferCtrl in Hrun. cbv [mbind M_bind get] in Hrun.
  destruct (m_device_attached s); simpl in Hrun.
  - destruct (decide (ctrl_request_key cmd = SET_INTERFACE_HDR)).
    + destruct (set_interface_request host cmd s) as [[[r1 s1] l1]|] eqn:E; [|discriminate].
      inversion Hrun; subst. exact (set_interface_request_rx _ _ _ _ _ _ E).
    + destruct (decide (ctrl_request_key cmd = SET_CONFIGURATION_HDR)); [|tauto].
      destruct (set_configuration_request host cmd s) as [[[r1 s1] l1]|] eqn:E;
        [|discriminate].
      inversion Hrun; subst. exact (set_configuration_request_rx _ _ _ _ _ _ E).
  - inversion Hrun; subst. rewrite decide_False; [reflexivity|].
    unfold LIBUSB_ERROR_NOT_FOUND. lia.
Qed.

(** X11: SET_INTERFACE compares only the low byte of [wIndex] with the
    active interface.  When they match, the request is one
    [libusb_set_interface_alt_setting] on the active interface with the
    low byte of [wValue], and nothing else changes.  When they differ and
    [ChangeInterface] fails, its error is returned at once: the alternate
    setting is not set.  When [ChangeInterface] succeeds, the requested
    interface is then the active one and the alternate setting is set on
    it, after the change; its result is returned and, when it is 0,
    replied. *)
Theorem set_interface_request_paths (host : Host) (s : LibusbDevice) (cmd : CtrlMessage)
    (Hatt : m_device_attached s = true) (Hkey : ctrl_request_key cmd = SET_INTERFACE_HDR) :
  (u8 (index cmd) = m_active_interface s ->
     exists evs,
       SubmitTransferCtrl host cmd s =
         Some (libusb_set_interface_alt_setting host (m_active_interface s) (u8 (value cmd)),
               s, evs) /\
       host_calls evs = [HSetInterfaceAltSetting (m_active_interface s) (u8 (value cmd))]) /\
  (u8 (index cmd) <> m_active_interface s ->
   forall r s1 evc, ChangeInterface host (u8 (index cmd)) s = Some (r, s1, evc) -> r < 0 ->
     SubmitTransferCtrl host cmd s =
       Some (r, s1, evc ++ [EvLog "Failed to change interface"%string])) /\
  (u8 (index cmd) <> m_active_interface s ->
   forall r s1 evc, ChangeInterface host (u8 (index cmd)) s = Some (r, s1, evc) -> 0 <= r ->
     let ret := libusb_set_interface_alt_setting host (u8 (index cmd)) (u8 (value cmd)) in
     m_active_interface s1 = u8 (index cmd) /\
     SubmitTransferCtrl host cmd s =
       Some (ret, s1,
             evc ++ [EvLog "Setting alt setting"%string;
                     EvHost (HSetInterfaceAltSetting (u8 (index cmd)) (u8 (value cmd)))] ++
             (if decide (ret = 0) then [EvReply (ctrl_ios_request cmd) (ctrl_length cmd)]
              else []))).
Proof.
  split; [|split].
  - intros Heq. unfold SubmitTransferCtrl, set_interface_request, SetAltSetting.
    cbv [mbind M_bind get log emit mret M_ret]. rewrite Hatt. simpl.
    rewrite decide_True by exact Hkey.
    rewrite decide_False by (intros H; exact (H Heq)). simpl. rewrite Hatt. simpl.
    destruct (decide (libusb_set_interface_alt_setting host (m_active_interface s)
                        (u8 (value cmd)) = 0));
      eexists; (split; [reflexivity|]); reflexivity.
  - intros Hne r s1 evc Hch Hr. unfold SubmitTransferCtrl, set_interface_request.
    cbv [mbind M_bind get log emit mret M_ret]. rewrite Hatt. simpl.
    rewrite decide_True by exact Hkey. rewrite decide_True by exact Hne.
    rewrite Hch. rewrite decide_True by exact Hr. reflexivity.
  - intros Hne r s1 evc Hch Hr ret.
    destruct (ChangeInterface_nonneg _ _ _ _ _ _ Hch Hr) as (-> & -> & _ & _).
    split; [reflexivity|].
    unfold SubmitTransferCtrl, set_interface_request, SetAltSetting.
    cbv [mbind M_bind get log emit emit_all mret M_ret]. rewrite Hatt. simpl.
    rewrite decide_True by exact Hkey. rewrite decide_True by exact Hne.
    rewrite Hch. rewrite decide_False by lia. simpl. rewrite Hatt. simpl. fold ret.
    destruct (decide (ret = 0)); simpl; rewrite ?app_nil_r; reflexivity.
Qed.

(** ** Interfaces *)

(** X12: [DetachInterface] never changes the device.  Without a handle it
    returns -1 and calls nothing; otherwise it releases the active
    interface, and a release that fails only because the device is gone
    ([LIBUSB_ERROR_NO_DEVICE]) still counts as success. *)
Theorem DetachInterface_edges (host : Host) (s : LibusbDevice) :
  (m_handle s = false ->
     DetachInterface host s =
       Some (-1, s, [EvLog "Cannot detach without a valid device handle"%string])) /\
  (m_handle s = true ->
     exists evs,
       DetachInterface host s =
         Some (let ret := libusb_release_interface host (m_active_interface s) in
               if decide (ret < 0 /\ ret <> LIBUSB_ERROR_NO_DEVICE) then ret else 0, s, evs) /\
       host_calls evs = [HReleaseInterface (m_active_interface s)]) /\
  (m_handle s = true ->
   libusb_release_interface host (m_active_interface s) = LIBUSB_ERROR_NO_DEVICE ->
     exists evs, DetachInterface host s = Some (0, s, evs)).
Proof.
  unfold DetachInterface. cbv [mbind M_bind get log emit mret M_ret].
  split; [|split].
  - intros ->. reflexivity.
  - intros ->. simpl. cbv zeta.
    destruct (decide _); eexists; split; reflexivity.
  - intros -> Hnd. simpl. rewrite Hnd.
    rewrite decide_False by (unfold LIBUSB_ERROR_NO_DEVICE; lia). eexists. reflexivity.
Qed.

(** X13: [AttachInterface] without a handle returns -1 and calls nothing.
    With one it first detaches the kernel driver; [LIBUSB_ERROR_NOT_FOUND]
    and [LIBUSB_ERROR_NOT_SUPPORTED] from that call are tolerated and the
    interface is claimed, while any other error is returned before any
    claim, with the device unchanged. *)
Theorem AttachInterface_edges (host : Host) (s : LibusbDevice) (i : Z) :
  (m_handle s = false ->
     AttachInterface host i s =
       Some (-1, s, [EvLog "Cannot attach without a valid device handle"%string])) /\
  (m_handle s = true ->
   let ret := libusb_detach_kernel_driver host i in
   (0 <= ret \/ ret = LIBUSB_ERROR_NOT_FOUND \/ ret = LIBUSB_ERROR_NOT_SUPPORTED) ->
   0 <= libusb_claim_interface host i ->
     exists evs,
       AttachInterface host i s = Some (0, set_active_interface i s, evs) /\
       host_calls evs = [HDetachKernelDriver i; HClaimInterface i]) /\
  (m_handle s = true ->
   let ret := libusb_detach_kernel_driver host i in
   ret < 0 -> ret <> LIBUSB_ERROR_NOT_FOUND -> ret <> LIBUSB_ERROR_NOT_SUPPORTED ->
     exists evs,
       AttachInterface host i s = Some (ret, s, evs) /\
       host_calls evs = [HDetachKernelDriver i]).
Proof.
  unfold AttachInterface. cbv [mbind M_bind get log emit modify mret M_ret].
  split; [|split].
  - intros ->. reflexivity.
  - intros -> Hret Hclaim. simpl.
    rewrite decide_False by (unfold LIBUSB_ERROR_NOT_FOUND, LIBUSB_ERROR_NOT_SUPPORTED in *; lia).
    rewrite decide_False by lia. eexists. split; reflexivity.
  - intros -> H1 H2 H3. simpl.
    rewrite decide_True by (split; [exact H1|split; assumption]).
    eexists. split; reflexivity.
Qed.

(** X14: when [libusb_open] succeeds but the interface cannot be claimed,
    [Attach] reports failure and leaves the device unattached while
    keeping the open handle; the next [Attach] calls [libusb_open]
    again. *)
Theorem Attach_claim_failure_keeps_handle (host : Host) (s : LibusbDevice) (i : Z)
    (Hdet : m_device_attached s = false) (Hopen : libusb_open host = 0)
    (Hclaim : libusb_claim_interface host i < 0) :
  exists s' evs,
    Attach host i s = Some (false, s', evs) /\
    m_device_attached s' = false /\ m_handle s' = true /\
    m_active_interface s' = m_active_interface s /\
    exists s'' evs', Attach host i s' = Some (false, s'', evs') /\ HOpen ∈ host_calls evs'.
Proof.
  assert (Hrun : forall s0, m_device_attached s0 = false ->
            exists evs, Attach host i s0 =
              Some (false, set_handle true (set_device_attached false s0), evs) /\
              HOpen ∈ host_calls evs).
  { intros s0 H0. unfold Attach, AttachInterface.
    cbv [mbind M_bind get log emit modify mret M_ret]. rewrite H0. simpl.
    rewrite decide_False by (rewrite Hopen; congruence). simpl.
    destruct (decide (libusb_detach_kernel_driver host i < 0 /\ _)) as [[Hd _]|Hd].
    - rewrite decide_True by lia. eexists. split; [reflexivity|].
      apply list_elem_of_In. simpl. tauto.
    - rewrite decide_True by exact Hclaim. rewrite decide_True by lia.
      eexists. split; [reflexivity|]. apply list_elem_of_In. simpl. tauto. }
  destruct (Hrun s Hdet) as (evs & H1 & _).
  eexists _, evs. split; [exact H1|]. simpl. split; [reflexivity|split; [reflexivity|]].
  split; [reflexivity|].
  destruct (Hrun (set_handle true (set_device_attached false s)) eq_refl) as (evs' & H2 & H3).
  eexists _, evs'. split; [exact H2|exact H3].
Qed.

(** X15: on an attached device, [ChangeInterface] to an interface number
    past those of configuration 0 answers [LIBUSB_ERROR_NOT_FOUND] with no
    effect; it reads configuration 0 without checking that it is valid,
    so a device whose first configuration could not be read is undefined
    behaviour there. *)
Theorem ChangeInterface_guards (host : Host) (s : LibusbDevice) (i : Z) :
  (m_device_attached s = true ->
   forall d0, m_config_descriptors s !! 0%nat = Some (Some d0) -> bNumInterfaces d0 <= i ->
     ChangeInterface host i s = Some (LIBUSB_ERROR_NOT_FOUND, s, [])) /\
  (m_device_attached s = true ->
   m_config_descriptors s !! 0%nat = None \/ m_config_descriptors s !! 0%nat = Some None ->
     ChangeInterface host i s = None).
Proof.
  unfold ChangeInterface. cbv [mbind M_bind get fault mret M_ret]. split.
  - intros Hatt d0 Hd0 Hi. rewrite Hatt, Hd0. simpl. rewrite decide_True by exact Hi.
    reflexivity.
  - intros Hatt [H|H]; rewrite Hatt, H; reflexivity.
Qed.

(** ** Descriptors *)




Lemma collect_configurations_counts (cs : list LibusbConfigDescriptor) :
  length (collect_configurations cs).2 = length (filter (fun c => c = None) cs) /\
  (length (collect_configurations cs).1 + length (collect_configurations cs).2 = length cs)%nat.
Proof.
  induction cs as [|c cs [IH1 IH2]]; [split; reflexivity|].
  destruct c as [d|].
  - rewrite filter_cons_False by discriminate. simpl.
    destruct (collect_configurations cs) as [ds evs]. simpl in *. split; lia.
  - rewrite filter_cons_True by reflexivity. simpl.
    destruct (collect_configurations cs) as [ds evs]. simpl in *. split; lia.
Qed.

(** X18: [GetConfigurations] changes nothing and accounts for every slot:
    one descriptor per valid configuration and one log line per invalid
    one. *)
Theorem GetConfigurations_accounts_for_slots (s : LibusbDevice) :
  exists ds evs,
    GetConfigurations s = Some (ds, s, evs) /\
    length evs = length (filter (fun c => c = None) (m_config_descriptors s)) /\
    (length ds + length evs = length (m_config_descriptors s))%nat.
Proof.
  destruct (collect_configurations_counts (m_config_descriptors s)) as [H1 H2].
  unfold GetConfigurations. cbv [mbind M_bind get emit_all mret M_ret].
  destruct (collect_configurations (m_config_descriptors s)) as [ds evs]. simpl in *.
  exists ds, (evs ++ []). rewrite app_nil_r. split; [reflexivity|]. split; lia.
Qed.

(** X19: the fields of the device identifier can be read back from it:
    the vendor id above bit 32, then the product id, the bus number and
    the device address, each field within its 16/16/8/8-bit range. *)
Theorem device_id_fields (host : Host) (descriptor : libusb_device_descriptor)
    (Hv : 0 <= idVendor descriptor < 2 ^ 16) (Hp : 0 <= idProduct descriptor < 2 ^ 16)
    (Hb : 0 <= libusb_get_bus_number host < 2 ^ 8)
    (Ha : 0 <= libusb_get_device_address host < 2 ^ 8) :
  let id := m_id (make_device host descriptor) in
  Z.shiftr id 32 = idVendor descriptor /\
  Z.land (Z.shiftr id 16) (Z.ones 16) = idProduct descriptor /\
  Z.land (Z.shiftr id 8) (Z.ones 8) = libusb_get_bus_number host /\
  Z.land id (Z.ones 8) = libusb_get_device_address host.
Proof.
  change (2 ^ 16) with 65536 in *. change (2 ^ 8) with 256 in *.
  cbv zeta. simpl. rewrite device_id_value by assumption.
  rewrite !Z.shiftr_div_pow2, !Z.land_ones by lia.
  change (2 ^ 32) with 4294967296. change (2 ^ 16) with 65536. change (2 ^ 8) with 256.
  set (vid := idVendor descriptor). set (pid := idProduct descriptor).
  set (bus := libusb_get_bus_number host). set (addr := libusb_get_device_address host).
  split; [|split; [|split]].
  - symmetry. apply (Z.div_unique_pos _ _ _ (pid * 65536 + bus * 256 + addr)); lia.
  - rewrite <- (Z.div_unique_pos _ 65536 (vid * 65536 + pid) (bus * 256 + addr)) by lia.
    symmetry. apply (Z.mod_unique_pos _ _ vid); lia.
  - rewrite <- (Z.div_unique_pos _ 256 (vid * 16777216 + pid * 256 + bus) addr) by lia.
    symmetry. apply (Z.mod_unique_pos _ _ (vid * 65536 + pid)); lia.
  - symmetry. apply (Z.mod_unique_pos _ _ (vid * 16777216 + pid * 256 + bus)); lia.
Qed.

(** X20: the destructor releases the active interface only when the device
    is attached (and has a handle), closes the handle exactly when one is
    open, whatever the release returned, and always drops the device
    reference last; it changes nothing else. *)
Theorem LibusbDevice_destructor_calls (host : Host) (s : LibusbDevice) :
  exists evs,
    LibusbDevice_destructor host s =
      Some ((if m_handle s then [libusb_close] else []) ++ [libusb_unref_device], s, evs) /\
    host_calls evs =
      if m_device_attached s && m_handle s then [HReleaseInterface (m_active_interface s)]
      else [].
Proof.
  unfold LibusbDevice_destructor, DetachInterface.
  cbv [mbind M_bind get log emit mret M_ret].
  destruct (m_device_attached s) eqn:Ha, (m_handle s) eqn:Hh; simpl;
    rewrite ?Ha, ?Hh; simpl; try destruct (decide _); simpl; rewrite ?Hh;
    eexists; split; reflexivity.
Qed.

(** ** Witnesses *)

Lemma TransferCallback_iso_completed_witness :
  (endpoint_at (m_transfer_endpoints example_iso_submitted) (t_endpoint example_iso_done)
     !! t_ptr example_iso_done = Some (Iso example_iso) /\
   t_type example_iso_done = LIBUSB_TRANSFER_TYPE_ISOCHRONOUS /\
   t_status example_iso_done = LIBUSB_TRANSFER_COMPLETED /\
   (num_packets example_iso <= length (iso_packet_desc example_iso_done))%nat) /\
  exists s' ws,
    TransferCallback example_iso_done example_iso_submitted =
      Some (tt, s',
            EvGuest (FillBuffer (iso_ios_request example_iso) (iso_length example_iso))
              :: map EvGuest ws ++
            [EvTransferComplete (iso_ios_request example_iso) IPC_SUCCESS]) /\
    length ws = num_packets example_iso /\
    forall i d, (i < num_packets example_iso)%nat -> iso_packet_desc example_iso_done !! i = Some d ->
      ws !! i = Some (SetPacketReturnValue (iso_ios_request example_iso) i (actual_length_pkt d)).
Proof.
  split; [vm_compute; repeat split; auto|].
  apply (TransferCallback_iso_completed example_iso_submitted example_iso_done example_iso).
  - vm_compute; reflexivity.
  - reflexivity.
  - reflexivity.
  - simpl; lia.
Defined.

Lemma HandleTransfer_status_codes_witness :
  ({[1%N := Bulk example_bulk]} : TransferEndpoint) !! t_ptr example_bulk_done
    = Some (Bulk example_bulk) /\
  (t_status example_bulk_done = LIBUSB_TRANSFER_COMPLETED ->
     forall rv ws, ctrl_completion example_bulk_done (Bulk example_bulk) = Some (rv, ws) ->
       HandleTransfer {[1%N := Bulk example_bulk]} example_bulk_done
         (ctrl_completion example_bulk_done) =
         Some (delete (t_ptr example_bulk_done) {[1%N := Bulk example_bulk]},
               map EvGuest ws ++ [EvTransferComplete (ios_request (Bulk example_bulk)) rv])) /\
  (t_status example_bulk_done = LIBUSB_TRANSFER_ERROR \/
   t_status example_bulk_done = LIBUSB_TRANSFER_CANCELLED \/
   t_status example_bulk_done = LIBUSB_TRANSFER_TIMED_OUT \/
   t_status example_bulk_done = LIBUSB_TRANSFER_OVERFLOW ->
     HandleTransfer {[1%N := Bulk example_bulk]} example_bulk_done
       (ctrl_completion example_bulk_done) =
       Some (delete (t_ptr example_bulk_done) {[1%N := Bulk example_bulk]},
             [EvLog "transfer failed"%string;
              EvTransferComplete (ios_request (Bulk example_bulk)) (-5)])) /\
  (t_status example_bulk_done = LIBUSB_TRANSFER_STALL ->
     HandleTransfer {[1%N := Bulk example_bulk]} example_bulk_done
       (ctrl_completion example_bulk_done) =
       Some (delete (t_ptr example_bulk_done) {[1%N := Bulk example_bulk]},
             [EvLog "transfer failed"%string;
              EvTransferComplete (ios_request (Bulk example_bulk)) (-7004)])) /\
  (t_status example_bulk_done = LIBUSB_TRANSFER_NO_DEVICE ->
     HandleTransfer {[1%N := Bulk example_bulk]} example_bulk_done
       (ctrl_completion example_bulk_done) =
       Some (delete (t_ptr example_bulk_done) {[1%N := Bulk example_bulk]},
             [EvTransferComplete (ios_request (Bulk example_bulk)) IPC_ENOENT])) /\
  IPC_ENOENT <> -5 /\ IPC_ENOENT <> -7004 /\ -7004 <> -5.
Proof.
  split; [vm_compute; reflexivity|].
  apply (HandleTransfer_status_codes {[1%N := Bulk example_bulk]} example_bulk_done
           (ctrl_completion example_bulk_done) (Bulk example_bulk)).
  vm_compute; reflexivity.
Defined.


Lemma device_id_injective_witness :
  (0 <= idVendor example_descriptor < 2 ^ 16 /\ 0 <= idProduct example_descriptor < 2 ^ 16 /\
   0 <= libusb_get_bus_number example_host < 2 ^ 8 /\
   0 <= libusb_get_device_address example_host < 2 ^ 8 /\
   0 <= libusb_get_bus_number other_port_host < 2 ^ 8 /\
   0 <= libusb_get_device_address other_port_host < 2 ^ 8 /\
   (idVendor example_descriptor, idProduct example_descriptor,
    libusb_get_bus_number example_host, libusb_get_device_address example_host)
   <> (idVendor example_descriptor, idProduct example_descriptor,
       libusb_get_bus_number other_port_host, libusb_get_device_address other_port_host)) /\
  m_id (make_device example_host example_descriptor)
    <> m_id (make_device other_port_host example_descriptor).
Proof.
  split; [simpl; repeat split; try lia; congruence|].
  apply device_id_injective; simpl; try lia; congruence.
Defined.

Lemma example_attached_invariant : tracker_invariant example_attached.
Proof.
  unfold tracker_invariant.
  replace (m_transfer_endpoints example_attached) with (∅ : gmap Z TransferEndpoint)
    by (vm_compute; reflexivity).
  split; intros *; rewrite lookup_empty; discriminate.
Qed.

Lemma AddTransfer_HandleTransfer_roundtrip_witness :
  (∅ : TransferEndpoint) !! t_ptr example_bulk_done = None /\
  AddTransfer (Bulk example_bulk) (t_ptr example_bulk_done) ∅ !! t_ptr example_bulk_done
    = Some (Bulk example_bulk) /\
  (forall p, p <> t_ptr example_bulk_done ->
     AddTransfer (Bulk example_bulk) (t_ptr example_bulk_done) ∅ !! p
       = (∅ : TransferEndpoint) !! p) /\
  forall te' evs,
    HandleTransfer (AddTransfer (Bulk example_bulk) (t_ptr example_bulk_done) ∅)
      example_bulk_done (transfer_completion example_bulk_done) = Some (te', evs) ->
    te' = ∅ /\ exists rv, completions evs = [(ios_request (Bulk example_bulk), rv)].
Proof.
  split; [vm_compute; reflexivity|].
  apply (AddTransfer_HandleTransfer_roundtrip ∅ (Bulk example_bulk) example_bulk_done
           (transfer_completion example_bulk_done)).
  vm_compute; reflexivity.
Defined.

Lemma TransferCallback_untracked_witness :
  endpoint_at (m_transfer_endpoints example_attached) (t_endpoint example_bulk_done)
    !! t_ptr example_bulk_done = None /\
  let s' := set_transfer_endpoints
              (<[t_endpoint example_bulk_done :=
                   endpoint_at (m_transfer_endpoints example_attached)
                     (t_endpoint example_bulk_done)]>
                 (m_transfer_endpoints example_attached)) example_attached in
  TransferCallback example_bulk_done example_attached
    = Some (tt, s', [EvLog "No such transfer"%string]) /\
  m_transfer_endpoints s' !! t_endpoint example_bulk_done =
    Some (endpoint_at (m_transfer_endpoints example_attached) (t_endpoint example_bulk_done)) /\
  CancelTransfer (t_endpoint example_bulk_done) s' =
    Some (IPC_SUCCESS, s',
          EvLog "Cancelling transfers"%string
            :: CancelTransfers (endpoint_at (m_transfer_endpoints example_attached)
                                  (t_endpoint example_bulk_done))).
Proof.
  split; [vm_compute; reflexivity|].
  apply (TransferCallback_untracked example_bulk_done example_attached).
  vm_compute; reflexivity.
Defined.


Lemma unattached_device_refuses_witness :
  m_device_attached example_device = false /\
  (forall cmd, SubmitTransferCtrl example_host cmd example_device
                 = Some (LIBUSB_ERROR_NOT_FOUND, example_device, [])) /\
  (forall cmd, SubmitTransferBulk example_host cmd example_device
                 = Some (LIBUSB_ERROR_NOT_FOUND, example_device, [])) /\
  (forall cmd, SubmitTransferIntr example_host cmd example_device
                 = Some (LIBUSB_ERROR_NOT_FOUND, example_device, [])) /\
  (forall cmd, SubmitTransferIso example_host cmd example_device
                 = Some (LIBUSB_ERROR_NOT_FOUND, example_device, [])) /\
  (forall a, SetAltSetting example_host a example_device
               = Some (LIBUSB_ERROR_NOT_FOUND, example_device, [])) /\
  (forall i, ChangeInterface example_host i example_device
               = Some (LIBUSB_ERROR_NOT_FOUND, example_device, [])).
Proof.
  split; [reflexivity|].
  apply (unattached_device_refuses example_host example_device).
  reflexivity.
Defined.

Lemma data_transfer_submission_witness :
  (tracker_invariant example_attached /\ m_device_attached example_attached = true) /\
  exists s',
    SubmitTransferBulk example_host example_bulk example_attached =
      Some (libusb_submit_transfer example_host (m_next_transfer example_attached), s',
            [EvHost (HSubmitTransfer (m_next_transfer example_attached))]) /\
    m_next_transfer s' = (m_next_transfer example_attached + 1)%N /\
    m_transfer_endpoints s' !! bulk_endpoint example_bulk =
      Some (<[m_next_transfer example_attached := Bulk example_bulk]>
              (endpoint_at (m_transfer_endpoints example_attached)
                 (bulk_endpoint example_bulk))) /\
    endpoint_at (m_transfer_endpoints example_attached) (bulk_endpoint example_bulk)
      !! m_next_transfer example_attached = None /\
    (forall ep, ep <> bulk_endpoint example_bulk ->
       m_transfer_endpoints s' !! ep = m_transfer_endpoints example_attached !! ep).
Proof.
  split; [split; [exact example_attached_invariant | vm_compute; reflexivity]|].
  apply (proj1 (data_transfer_submission example_host example_attached
                  example_attached_invariant ltac:(vm_compute; reflexivity))).
Defined.

Lemma bulk_submit_then_callback_witness :
  (tracker_invariant example_attached /\ m_device_attached example_attached = true /\
   t_ptr example_bulk_done = m_next_transfer example_attached /\
   t_endpoint example_bulk_done = bulk_endpoint example_bulk /\
   t_type example_bulk_done <> LIBUSB_TRANSFER_TYPE_ISOCHRONOUS) /\
  exists s' evs,
    (_ ← SubmitTransferBulk example_host example_bulk; TransferCallback example_bulk_done)
      example_attached = Some (tt, s', evs) /\
    m_transfer_endpoints s' =
      <[bulk_endpoint example_bulk :=
          endpoint_at (m_transfer_endpoints example_attached) (bulk_endpoint example_bulk)]>
        (m_transfer_endpoints example_attached) /\
    m_next_transfer s' = (m_next_transfer example_attached + 1)%N /\
    exists rv, completions evs = [(bulk_ios_request example_bulk, rv)] /\
      (t_status example_bulk_done = LIBUSB_TRANSFER_COMPLETED ->
         rv = t_actual_length example_bulk_done).
Proof.
  split; [split; [exact example_attached_invariant|]; split; [vm_compute; reflexivity|];
          split; [vm_compute; reflexivity|]; split; [reflexivity | discriminate]|].
  apply (bulk_submit_then_callback example_host example_attached example_bulk
           example_bulk_done example_attached_invariant).
  - vm_compute; reflexivity.
  - vm_compute; reflexivity.
  - reflexivity.
  - discriminate.
Defined.

Lemma intercepted_request_replies_witness :
  ((ctrl_request_key example_set_configuration = SET_INTERFACE_HDR \/
    ctrl_request_key example_set_configuration = SET_CONFIGURATION_HDR) /\
   SubmitTransferCtrl example_host example_set_configuration example_attached =
     Some (0, example_attached, [EvHost (HSetConfiguration 1); EvReply 0x200 8])) /\
  replies [EvHost (HSetConfiguration 1); EvReply 0x200 8] =
    if decide ((0 : Z) = 0)
    then [(ctrl_ios_request example_set_configuration, ctrl_length example_set_configuration)]
    else [].
Proof.
  split; [split; [right; vm_compute; reflexivity | vm_compute; reflexivity]|].
  apply (intercepted_request_replies example_host example_attached example_set_configuration
           ltac:(right; vm_compute; reflexivity) 0 example_attached
           [EvHost (HSetConfiguration 1); EvReply 0x200 8]).
  vm_compute; reflexivity.
Defined.


Lemma Attach_claim_failure_keeps_handle_witness :
  (m_device_attached example_device = false /\ libusb_open claim_failing_host = 0 /\
   libusb_claim_interface claim_failing_host 0 < 0) /\
  exists s' evs,
    Attach claim_failing_host 0 example_device = Some (false, s', evs) /\
    m_device_attached s' = false /\ m_handle s' = true /\
    m_active_interface s' = m_active_interface example_device /\
    exists s'' evs', Attach claim_failing_host 0 s' = Some (false, s'', evs') /\
                     HOpen ∈ host_calls evs'.
Proof.
  split; [repeat split; vm_compute; reflexivity|].
  apply (Attach_claim_failure_keeps_handle claim_failing_host example_device 0);
    vm_compute; reflexivity.
Defined.


Lemma device_id_fields_witness :
  (0 <= idVendor example_descriptor < 2 ^ 16 /\ 0 <= idProduct example_descriptor < 2 ^ 16 /\
   0 <= libusb_get_bus_number example_host < 2 ^ 8 /\
   0 <= libusb_get_device_address example_host < 2 ^ 8) /\
  let id := m_id (make_device example_host example_descriptor) in
  Z.shiftr id 32 = idVendor example_descriptor /\
  Z.land (Z.shiftr id 16) (Z.ones 16) = idProduct example_descriptor /\
  Z.land (Z.shiftr id 8) (Z.ones 8) = libusb_get_bus_number example_host /\
  Z.land id (Z.ones 8) = libusb_get_device_address example_host.
Proof.
  split; [simpl; lia|].
  apply (device_id_fields example_host example_descriptor); simpl; lia.
Defined.

Lemma SubmitTransferCtrl_intercepts_standard_requests_witness :
  let evs := [EvHost (HSetConfiguration 1); EvReply 0x200 8] in
  ((ctrl_request_key example_set_configuration = SET_INTERFACE_HDR \/
    ctrl_request_key example_set_configuration = SET_CONFIGURATION_HDR) /\
   SubmitTransferCtrl example_host example_set_configuration example_attached =
     Some (0, example_attached, evs)) /\
  m_transfer_endpoints example_attached = m_transfer_endpoints example_attached /\
  m_next_transfer example_attached = m_next_transfer example_attached /\
  (forall p, EvHost (HSubmitTransfer p) ∉ evs) /\
  (0 = 0 -> exists pre, evs = pre ++ [EvReply (ctrl_ios_request example_set_configuration) (ctrl_length example_set_configuration)]) /\
  (m_device_attached example_attached = true -> ctrl_request_key example_set_configuration = SET_CONFIGURATION_HDR ->
     0 = libusb_set_configuration example_host (value example_set_configuration) /\
     host_calls evs = [HSetConfiguration (value example_set_configuration)]) /\
  (forall i a, EvHost (HSetInterfaceAltSetting i a) ∈ evs ->
     i = u8 (index example_set_configuration) /\ a = u8 (value example_set_configuration) /\
     0 = libusb_set_interface_alt_setting example_host i a) /\
  (0 = 0 -> exists pre c,
     evs = pre ++ [EvHost c; EvReply (ctrl_ios_request example_set_configuration) (ctrl_length example_set_configuration)] /\
     ((c = HSetConfiguration (value example_set_configuration) /\ libusb_set_configuration example_host (value example_set_configuration) = 0) \/
      (c = HSetInterfaceAltSetting (u8 (index example_set_configuration)) (u8 (value example_set_configuration)) /\
       libusb_set_interface_alt_setting example_host (u8 (index example_set_configuration)) (u8 (value example_set_configuration)) = 0))).
Proof.
  intros evs.
  split; [split; [right; vm_compute; reflexivity|vm_compute; reflexivity]|].
  apply (SubmitTransferCtrl_intercepts_standard_requests example_host example_attached
           example_set_configuration ltac:(right; vm_compute; reflexivity) 0 example_attached evs).
  vm_compute; reflexivity.
Defined.

Lemma ChangeInterface_detach_failure_witness :
  let evd := [EvLog "Detaching interface"%string; EvHost (HReleaseInterface 0)] in
  (m_device_attached two_interface_attached = true /\
   m_config_descriptors two_interface_attached !! 0%nat = Some (Some two_interface_config) /\
   1 < bNumInterfaces two_interface_config /\
   DetachInterface two_interface_host two_interface_attached =
     Some (0, two_interface_attached, evd)) /\
  two_interface_attached = two_interface_attached /\
  (forall j, (EvHost (HClaimInterface j) ∉ evd) /\ (EvHost (HDetachKernelDriver j) ∉ evd)) /\
  (0 < 0 -> ChangeInterface two_interface_host 1 two_interface_attached = Some (0, two_interface_attached, EvLog "Changing interface"%string :: evd)) /\
  (0 <= 0 -> exists r' s' eva,
     AttachInterface two_interface_host 1 two_interface_attached = Some (r', s', eva) /\
     ChangeInterface two_interface_host 1 two_interface_attached = Some (r', s', EvLog "Changing interface"%string :: evd ++ eva)) /\
  (forall j s0 s' r' evs, AttachInterface two_interface_host j s0 = Some (r', s', evs) ->
     (r' = 0 /\ s' = set_active_interface j s0 /\ 0 <= libusb_claim_interface two_interface_host j) \/
     (r' < 0 /\ s' = s0)).
Proof.
  intros evd.
  split; [split; [vm_compute; reflexivity|split; [vm_compute; reflexivity|
          split; vm_compute; reflexivity]]|].
  apply (ChangeInterface_detach_failure two_interface_host two_interface_attached 1
           two_interface_config); vm_compute; reflexivity.
Defined.

Lemma transfer_callbacks_local_witness :
  (exists s' evs, TransferCallback example_iso_done example_iso_submitted = Some (tt, s', evs) /\
   endpoint_at (m_transfer_endpoints example_iso_submitted) (t_endpoint example_iso_done)
     !! t_ptr example_iso_done = Some (Iso example_iso) /\
   exists te',
     s' = set_transfer_endpoints (<[t_endpoint example_iso_done := te']> (m_transfer_endpoints example_iso_submitted)) example_iso_submitted /\
     (forall p, p <> t_ptr example_iso_done ->
        te' !! p = endpoint_at (m_transfer_endpoints example_iso_submitted) (t_endpoint example_iso_done) !! p) /\
     te' !! t_ptr example_iso_done = None /\
     host_calls evs = [] /\ replies evs = [] /\ (length (completions evs) <= 1)%nat) /\
  (exists s' evs, CtrlTransferCallback example_ctrl_done example_ctrl_submitted = Some (tt, s', evs) /\
   endpoint_at (m_transfer_endpoints example_ctrl_submitted) 0
     !! t_ptr example_ctrl_done = Some (Ctrl example_ctrl) /\
   exists te',
     s' = set_transfer_endpoints (<[0 := te']> (m_transfer_endpoints example_ctrl_submitted)) example_ctrl_submitted /\
     (forall p, p <> t_ptr example_ctrl_done -> te' !! p = endpoint_at (m_transfer_endpoints example_ctrl_submitted) 0 !! p) /\
     te' !! t_ptr example_ctrl_done = None /\
     host_calls evs = [] /\ replies evs = [] /\ (length (completions evs) <= 1)%nat).
Proof.
  split; eexists _, _; (split; [vm_compute; reflexivity|]);
    (split; [vm_compute; reflexivity|]).
  - apply (proj1 (transfer_callbacks_local example_iso_done example_iso_submitted)).
    vm_compute; reflexivity.
  - apply (proj2 (transfer_callbacks_local example_ctrl_done example_ctrl_submitted)).
    vm_compute; reflexivity.
Defined.

Lemma completed_transfer_values_witness :
  (t_status example_bulk_done = LIBUSB_TRANSFER_COMPLETED /\
   t_type example_bulk_done <> LIBUSB_TRANSFER_TYPE_ISOCHRONOUS /\
   endpoint_at (m_transfer_endpoints example_bulk_submitted) (t_endpoint example_bulk_done)
     !! t_ptr example_bulk_done = Some (Bulk example_bulk) /\
   TransferCallback example_bulk_done example_bulk_submitted =
     Some (tt, set_transfer_endpoints
                 (<[t_endpoint example_bulk_done :=
                      delete (t_ptr example_bulk_done)
                        (endpoint_at (m_transfer_endpoints example_bulk_submitted)
                           (t_endpoint example_bulk_done))]>
                    (m_transfer_endpoints example_bulk_submitted)) example_bulk_submitted,
           [EvGuest (FillBuffer (ios_request (Bulk example_bulk))
                       (t_actual_length example_bulk_done));
            EvTransferComplete (ios_request (Bulk example_bulk))
              (t_actual_length example_bulk_done)])) /\
  (t_status example_ctrl_done = LIBUSB_TRANSFER_COMPLETED /\
   endpoint_at (m_transfer_endpoints example_ctrl_submitted) 0
     !! t_ptr example_ctrl_done = Some (Ctrl example_ctrl) /\
   CtrlTransferCallback example_ctrl_done example_ctrl_submitted =
     Some (tt, set_transfer_endpoints
                 (<[0 := delete (t_ptr example_ctrl_done)
                           (endpoint_at (m_transfer_endpoints example_ctrl_submitted) 0)]>
                    (m_transfer_endpoints example_ctrl_submitted)) example_ctrl_submitted,
           [EvGuest (FillBuffer (ios_request (Ctrl example_ctrl))
                       (t_actual_length example_ctrl_done));
            EvTransferComplete (ios_request (Ctrl example_ctrl)) (t_length example_ctrl_done)])).
Proof.
  split.
  - split; [reflexivity|split; [discriminate|split; [vm_compute; reflexivity|]]].
    apply (proj2 (completed_transfer_values example_bulk_done example_bulk_submitted
                    eq_refl) (Bulk example_bulk)).
    + discriminate.
    + vm_compute; reflexivity.
  - split; [reflexivity|split; [vm_compute; reflexivity|]].
    apply (proj1 (completed_transfer_values example_ctrl_done example_ctrl_submitted
                    eq_refl) (Ctrl example_ctrl)).
    vm_compute; reflexivity.
Defined.

Lemma set_interface_request_paths_witness :
  (m_device_attached two_interface_attached = true /\
   ctrl_request_key example_set_interface_1 = SET_INTERFACE_HDR) /\
  exists r s1 evc,
    (u8 (index example_set_interface_1) <> m_active_interface two_interface_attached /\
     ChangeInterface two_interface_host (u8 (index example_set_interface_1))
       two_interface_attached = Some (r, s1, evc) /\
     0 <= r) /\
    let ret := libusb_set_interface_alt_setting two_interface_host
                 (u8 (index example_set_interface_1)) (u8 (value example_set_interface_1)) in
    m_active_interface s1 = u8 (index example_set_interface_1) /\
    SubmitTransferCtrl two_interface_host example_set_interface_1 two_interface_attached =
      Some (ret, s1,
            evc ++ [EvLog "Setting alt setting"%string;
                    EvHost (HSetInterfaceAltSetting (u8 (index example_set_interface_1))
                              (u8 (value example_set_interface_1)))] ++
            (if decide (ret = 0)
             then [EvReply (ctrl_ios_request example_set_interface_1)
                     (ctrl_length example_set_interface_1)]
             else [])).
Proof.
  assert (Hatt : m_device_attached two_interface_attached = true) by (vm_compute; reflexivity).
  assert (Hkey : ctrl_request_key example_set_interface_1 = SET_INTERFACE_HDR)
    by (vm_compute; reflexivity).
  assert (Hne : u8 (index example_set_interface_1) <> m_active_interface two_interface_attached)
    by (vm_compute; discriminate).
  split; [split; [exact Hatt|exact Hkey]|].
  eexists _, _, _. split; [split; [exact Hne|split; [vm_compute; reflexivity|lia]]|].
  apply (proj2 (proj2 (set_interface_request_paths two_interface_host two_interface_attached
                         example_set_interface_1 Hatt Hkey)) Hne 0).
  - vm_compute; reflexivity.
  - lia.
Defined.
